(** * FacultyProfileapp: the Express backend [backend/server.js]

    A shallow embedding of the server's route handlers and of the parts of
    its platform they touch (the two Mongoose collections, the upload
    directory on disk, multer's disk storage), followed by the properties
    of the handlers.

    The file [backend/server.js] holds two copies of the server that differ
    in the CORS origin, the connection string and the log lines only; the
    seven route handlers are the same text in both, and are embedded once.

    Scope of the model. A handler is one step from request to response.
    The interleaving of requests at their [await]s is modelled for one
    pair only, two registrations ([post_register_interleaved]). The store and the
    disk answer every call; the only rejections are the two the handlers
    can provoke themselves, a route parameter that does not cast to an
    ObjectId and an insert with an [_id] already stored. The disk is the
    set of regular files, and unlinking a file that is there succeeds.
    Request bodies carry plain strings. The modules the server requires
    (path, bcryptjs, Mongoose's cast and update casting) are parameters,
    see [Runtime]. *)

From Stdlib Require Import NArith Ascii DecimalString DecimalPos DecimalN.
From stdpp Require Import gmap strings list fin_maps.

Open Scope string_scope.

(** ** Data model *)

(** A document identifier, [_id]: a 12-byte ObjectId, read as a number. *)
Abbreviation ObjectId := N (only parsing).

(** The salt bcrypt draws for one call of [bcrypt.hash]. *)
Abbreviation Salt := N (only parsing).

(** A stored value of a [String] path of a schema: a string, or [null]. An
    unset path is a key the document does not have. *)
Inductive value : Type :=
| Null
| Str (s : string).

#[global] Instance value_eq_dec : EqDecision value.
Proof. solve_decision. Defined.

(** A Faculty document: its [_id], and the paths of [facultySchema] it has
    (all of type [String]) as a map from the path's name. Mongoose's
    version key [__v] is left out; no handler reads or names it. *)
Abbreviation FacultyDoc := (ObjectId * gmap string value)%type (only parsing).

(** [userSchema]: { username: String, password: String }. The handlers
    never read a user's [_id]; the collection is kept in insertion order,
    the order in which [findOne] scans it. *)
Module User.
Record t : Type := mk { username : string; password : string }.
End User.

(** A JavaScript object literal whose values may be [undefined] ([None]),
    in source order. *)
Abbreviation ObjectLiteral := (list (string * option string)) (only parsing).

(** The request body after body-parser or multer: text fields by name;
    [body !! k] is [req.body.k], [None] when the field is undefined. *)
Abbreviation Body := (gmap string string) (only parsing).

(** The file part of a multipart request (only its client-side name matters
    to the server) and what multer leaves in [req.file]. *)
Record FilePart : Type := mkFilePart { originalname : string }.
Record MulterFile : Type := mkMulterFile { filename : string }.

(** The state the handlers act on: the two collections and the files on
    the server's disk (by full path). No other state outlives a request. *)
Record World : Type := mkWorld {
  users : list User.t;
  faculties : gmap ObjectId (gmap string value);
  disk : gset string;
}.

Definition set_users (f : list User.t → list User.t) (w : World) : World :=
  {| users := f (users w); faculties := faculties w; disk := disk w |}.
Definition set_faculties
    (f : gmap ObjectId (gmap string value) → gmap ObjectId (gmap string value))
    (w : World) : World :=
  {| users := users w; faculties := f (faculties w); disk := disk w |}.
Definition set_disk (f : gset string → gset string) (w : World) : World :=
  {| users := users w; faculties := faculties w; disk := f (disk w) |}.

(** ** Responses *)

(** The JSON bodies the handlers send, one constructor per shape. *)
Inductive Payload : Type :=
| Message (message : string)
    (* { message } *)
| Greeting (message : string) (username : string)
    (* { message, username } *)
| Outcome (success : bool) (message : string)
    (* { success, message } *)
| OutcomeWith (success : bool) (message : string) (faculty : option FacultyDoc)
    (* { success, message, faculty } *)
| Document (doc : FacultyDoc)
    (* res.json(faculty) *)
| Documents (docs : list FacultyDoc).
    (* res.json(faculties) *)

Record Response : Type := mkResponse { status : nat; payload : Payload }.

(** [res.status(code).json(body)] and [res.json(body)] (status 200). *)
Definition res_status_json (code : nat) (body : Payload) : Response :=
  mkResponse code body.
Definition res_json (body : Payload) : Response := mkResponse 200 body.

(** ** Asynchronous operations that may reject *)

(** What a rejected store call carries. *)
Inductive Exn : Type :=
| CastError (v : string)          (* Cast to ObjectId failed for value v *)
| DuplicateKey (oid : ObjectId).  (* E11000 duplicate key on _id *)

Inductive Completion (A : Type) : Type :=
| Fulfilled (a : A)
| Rejected (e : Exn).
Arguments Fulfilled {A} a.
Arguments Rejected {A} e.

(** An awaited operation: it acts on the world, then is fulfilled or
    rejected. Effects made before a rejection stay. *)
Definition Async (A : Type) : Type := World → World * Completion A.

#[global] Instance Async_ret : MRet Async := λ A a w, (w, Fulfilled a).
#[global] Instance Async_bind : MBind Async := λ A B k m w,
  match m w with
  | (w', Fulfilled a) => k a w'
  | (w', Rejected e) => (w', Rejected e)
  end.

(** [try { body } catch (err) { res.status(..).json(..) }]. *)
Definition try_catch (body : Async Response) (handler : Exn → Response)
    (w : World) : World * Response :=
  match body w with
  | (w', Fulfilled r) => (w', r)
  | (w', Rejected e) => (w', handler e)
  end.

(** ** The platform the server runs on

    The modules [server.js] requires and does not define. Their functions
    are taken as they are: the handlers are verified for every
    implementation, and a property that needs one of their contracts states
    it as a premise. *)
Class Runtime : Type := {
  (** [__dirname]. *)
  dirname : string;
  (** [path.join(a, b)] and [path.extname(p)]. *)
  path_join : string → string → string;
  path_extname : string → string;
  (** [bcrypt.hash(password, 10)], with the salt it draws made explicit,
      and [bcrypt.compare(password, hash)]. *)
  bcrypt_hash : string → Salt → string;
  bcrypt_compare : string → string → bool;
  (** Mongoose's cast of a route parameter to an ObjectId; [None] is the
      CastError. *)
  castObjectId : string → option ObjectId;
  (** What the store client does with a key of an update document whose
      value is [undefined]: [false], it writes [null] (Mongoose 5, where
      [omitUndefined] is an option the handlers do not pass); [true], it
      drops the key before sending the update (Mongoose 6 and later). *)
  omitUndefined : bool;
}.

(** [Number.prototype.toString] on a time value: [Date.now()] is an
    integer number of milliseconds, far below 1e21, so the conversion that
    [Date.now() + ext] applies is its plain decimal numeral. *)
Definition Number_toString (n : N) : string :=
  NilZero.string_of_uint (N.to_uint n).

(** JavaScript truthiness of a [String] path: the string when it is set,
    not [null] and not empty. *)
Definition truthy (v : option value) : option string :=
  match v with
  | Some (Str s) => if decide (s = "") then None else Some s
  | _ => None
  end.

(** ** The collections (Mongoose models [User] and [Faculty]) *)

(** The first user document with a given name, in collection order. *)
Definition first_named (name : string) (us : list User.t) : option User.t :=
  find (λ u, String.eqb (User.username u) name) us.

(** [User.findOne({ username })]. *)
Definition User_findOne (name : string) : Async (option User.t) := λ w,
  (w, Fulfilled (first_named name (users w))).

(** [new User({..}).save()]. *)
Definition User_save (u : User.t) : Async unit := λ w,
  (set_users (λ us, (us ++ [u])%list) w, Fulfilled ()).

(** [new Faculty({..})]: a path whose value is [undefined] stays unset. *)
Definition new_Faculty (obj : ObjectLiteral) : gmap string value :=
  foldr (λ kv m, match kv.2 with
                 | Some s => <[kv.1 := Str s]> m
                 | None => m
                 end) ∅ obj.

(** [newFaculty.save()], the document's [_id] having been drawn when it
    was constructed: the insert is rejected on a duplicate [_id]. *)
Definition Faculty_save (oid : ObjectId) (paths : gmap string value)
    : Async unit := λ w,
  match faculties w !! oid with
  | Some _ => (w, Rejected (DuplicateKey oid))
  | None => (set_faculties <[oid := paths]> w, Fulfilled ())
  end.

(** A projection string, [select]: the path names between spaces. *)
Fixpoint split_spaces (acc : string) (s : string) : list string :=
  match s with
  | EmptyString => if decide (acc = "") then [] else [acc]
  | String c s' =>
      if Ascii.eqb c " "%char
      then ((if decide (acc = "") then [] else [acc]) ++ split_spaces "" s')%list
      else split_spaces (acc +:+ String c "") s'
  end.

(** An inclusive projection keeps the named paths (and the [_id]). *)
Definition project (fields : list string) (d : FacultyDoc) : FacultyDoc :=
  (d.1, filter (λ kv, kv.1 ∈ fields) d.2).

(** [Faculty.find({}, projection)]. *)
Definition Faculty_find (projection : string) : Async (list FacultyDoc) := λ w,
  (w, Fulfilled (project (split_spaces "" projection) <$> map_to_list (faculties w))).

Section Store.
Context {rt : Runtime}.

(** [Faculty.findById(id)]. *)
Definition Faculty_findById (id : string) : Async (option FacultyDoc) := λ w,
  match castObjectId id with
  | None => (w, Rejected (CastError id))
  | Some oid => (w, Fulfilled (pair oid <$> faculties w !! oid))
  end.

(** The [$set] a plain update document stands for, one key at a time. *)
Definition apply_update (update : ObjectLiteral) (paths : gmap string value)
    : gmap string value :=
  foldl (λ m kv, match kv.2 with
                 | Some s => <[kv.1 := Str s]> m
                 | None => if omitUndefined then m else <[kv.1 := Null]> m
                 end) paths update.

(** [Faculty.findByIdAndUpdate(id, update, { new: true })]: the updated
    document, or [null] when none has that [_id]. *)
Definition Faculty_findByIdAndUpdate (id : string) (update : ObjectLiteral)
    : Async (option FacultyDoc) := λ w,
  match castObjectId id with
  | None => (w, Rejected (CastError id))
  | Some oid =>
      match faculties w !! oid with
      | None => (w, Fulfilled None)
      | Some paths =>
          let paths' := apply_update update paths in
          (set_faculties <[oid := paths']> w, Fulfilled (Some (oid, paths')))
      end
  end.

(** [Faculty.findByIdAndDelete(id)]: the document it removed, or [null]. *)
Definition Faculty_findByIdAndDelete (id : string)
    : Async (option FacultyDoc) := λ w,
  match castObjectId id with
  | None => (w, Rejected (CastError id))
  | Some oid =>
      match faculties w !! oid with
      | None => (w, Fulfilled None)
      | Some paths => (set_faculties (delete oid) w, Fulfilled (Some (oid, paths)))
      end
  end.

(** ** The disk ([fs]) and the upload middleware (multer) *)

Definition fs_existsSync (p : string) : Async bool := λ w,
  (w, Fulfilled (bool_decide (p ∈ disk w))).

Definition fs_unlinkSync (p : string) : Async unit := λ w,
  (set_disk (λ d, d ∖ {[p]}) w, Fulfilled ()).

(** [const uploadDir = path.join(__dirname, "faculty_uploadss")]. *)
Definition uploadDir : string := path_join dirname "faculty_uploadss".

(** [storage.filename]: [Date.now() + path.extname(file.originalname)]. *)
Definition storage_filename (now : N) (file : FilePart) : string :=
  Number_toString now +:+ path_extname (originalname file).

(** [upload.single("photo")], run before the handler: a file part is
    written under [uploadDir] and described in [req.file]. *)
Definition upload_single (now : N) (part : option FilePart) (w : World)
    : World * option MulterFile :=
  match part with
  | None => (w, None)
  | Some file =>
      let name := storage_filename now file in
      (set_disk (λ d, {[path_join uploadDir name]} ∪ d) w,
       Some (mkMulterFile name))
  end.
End Store.

(** ** The route handlers *)

Section Handlers.
Context {rt : Runtime}.

(** [app.post("/register", ..)]; [username] and [password] are the
    strings of [req.body], [salt] is what [bcrypt.hash] draws. *)
Definition post_register (username password : string) (salt : Salt)
    : World → World * Response :=
  try_catch
    (existing ← User_findOne username;
     match existing with
     | Some _ =>
         mret (res_status_json 400 (Message "Username already exists"))
     | None =>
         let hashedPassword := bcrypt_hash password salt in
         let user := User.mk username hashedPassword in
         User_save user;;
         mret (res_status_json 201 (Message "User registered successfully"))
     end)
    (λ err, res_status_json 500 (Message "Server error")).

(** [app.post("/login", ..)]. *)
Definition post_login (username password : string)
    : World → World * Response :=
  try_catch
    (user ← User_findOne username;
     match user with
     | None =>
         mret (res_status_json 400 (Message "Invalid username or password"))
     | Some user =>
         let isMatch := bcrypt_compare password (User.password user) in
         if isMatch
         then mret (res_json (Greeting ("Welcome " +:+ User.username user)
                                       (User.username user)))
         else mret (res_status_json 400 (Message "Invalid username or password"))
     end)
    (λ err, res_status_json 500 (Message "Error logging in")).

(** [app.post("/api/faculty", upload.single("photo"), ..)]; [now] is the
    clock multer's [filename] reads, [oid] the [_id] that
    [new Faculty(..)] draws. *)
Definition post_api_faculty (now : N) (oid : ObjectId) (body : Body)
    (part : option FilePart) (w : World) : World * Response :=
  let '(w, file) := upload_single now part w in
  try_catch
    (let newFaculty := new_Faculty [
       ("name", body !! "name");
       ("designation", body !! "designation");
       ("department", body !! "department");
       ("photo", Some match file with
                      | Some f => "/faculty_uploadss/" +:+ filename f
                      | None => ""
                      end);
       ("publications", body !! "publications");
       ("researchProjects", body !! "researchProjects");
       ("articlesAndJournals", body !! "articlesAndJournals");
       ("workshops", body !! "workshops");
       ("coursesHandled", body !! "coursesHandled");
       ("awardsReceived", body !! "awardsReceived") ] in
     Faculty_save oid newFaculty;;
     mret (res_json (Outcome true "Faculty saved successfully!")))
    (λ err, res_status_json 500 (Outcome false "Error saving faculty")) w.

(** [app.get("/api/faculty", ..)]. *)
Definition get_api_faculty : World → World * Response :=
  try_catch
    (faculties ← Faculty_find "name designation department photo";
     mret (res_json (Documents faculties)))
    (λ err, res_status_json 500 (Outcome false "Error fetching faculty")).

(** [app.get("/api/faculty/:id", ..)]. *)
Definition get_api_faculty_id (id : string) : World → World * Response :=
  try_catch
    (faculty ← Faculty_findById id;
     match faculty with
     | None => mret (res_status_json 404 (Outcome false "Faculty not found"))
     | Some faculty => mret (res_json (Document faculty))
     end)
    (λ err, res_status_json 500 (Outcome false "Error fetching faculty")).

(** [if (fs.existsSync(oldPath)) fs.unlinkSync(oldPath)] for the photo of
    a document, when it has one. *)
Definition unlink_photo (doc : FacultyDoc) : Async unit :=
  match truthy (doc.2 !! "photo") with
  | Some photo =>
      let oldPath := path_join dirname photo in
      found ← fs_existsSync oldPath;
      if (found : bool) then fs_unlinkSync oldPath else mret ()
  | None => mret ()
  end.

(** [app.put("/api/faculty/:id", upload.single("photo"), ..)]. *)
Definition put_api_faculty_id (now : N) (id : string) (body : Body)
    (part : option FilePart) (w : World) : World * Response :=
  let '(w, file) := upload_single now part w in
  try_catch
    (faculty ← Faculty_findById id;
     match faculty with
     | None => mret (res_status_json 404 (Outcome false "Faculty not found"))
     | Some faculty =>
         let updatedData := [
           ("name", body !! "name");
           ("designation", body !! "designation");
           ("department", body !! "department");
           ("publications", body !! "publications");
           ("researchProjects", body !! "researchProjects");
           ("articlesAndJournals", body !! "articlesAndJournals");
           ("workshops", body !! "workshops");
           ("coursesHandled", body !! "coursesHandled");
           ("awardsReceived", body !! "awardsReceived") ] in
         updatedData ←
           match file with
           | Some f =>
               unlink_photo faculty;;
               mret (updatedData ++
                     [("photo", Some ("/faculty_uploadss/" +:+ filename f))])%list
           | None => mret updatedData
           end;
         updatedFaculty ← Faculty_findByIdAndUpdate id updatedData;
         mret (res_json (OutcomeWith true "Faculty updated successfully!"
                                     updatedFaculty))
     end)
    (λ err, res_status_json 500 (Outcome false "Error updating faculty")) w.

(** [app.delete("/api/faculty/:id", ..)]. *)
Definition delete_api_faculty_id (id : string) : World → World * Response :=
  try_catch
    (deleted ← Faculty_findByIdAndDelete id;
     match deleted with
     | None => mret (res_status_json 404 (Outcome false "Faculty not found"))
     | Some deleted =>
         unlink_photo deleted;;
         mret (res_json (Outcome true "Faculty deleted successfully"))
     end)
    (λ err, res_status_json 500 (Outcome false "Error deleting faculty")).
End Handlers.

(** ** Vocabulary of the properties *)

(** A decimal digit, and a string of decimal digits. *)
Definition is_digit (c : ascii) : bool :=
  ((48 <=? N_of_ascii c) && (N_of_ascii c <=? 57))%N.

Fixpoint all_digits (s : string) : bool :=
  match s with
  | EmptyString => true
  | String c s' => is_digit c && all_digits s'
  end.

(** The keys of an object literal. *)
Definition keys (obj : ObjectLiteral) : list string := obj.*1.

(** The text paths of [facultySchema]: all but [photo]. *)
Definition text_fields : list string :=
  ["name"; "designation"; "department"; "publications"; "researchProjects";
   "articlesAndJournals"; "workshops"; "coursesHandled"; "awardsReceived"].

(** The paths the index view names, and the ones it withholds. *)
Definition index_fields : list string :=
  ["name"; "designation"; "department"; "photo"].
Definition detail_fields : list string :=
  ["publications"; "researchProjects"; "articlesAndJournals"; "workshops";
   "coursesHandled"; "awardsReceived"].

(** The update document of the PUT handler: every text path with the
    body's value for it, then [photo] when a file came with the request. *)
Definition text_update (body : Body) : ObjectLiteral :=
  (λ k, (k, body !! k)) <$> text_fields.
Definition photo_update (file : option MulterFile) : ObjectLiteral :=
  match file with
  | Some f => [("photo", Some ("/faculty_uploadss/" +:+ filename f))]
  | None => []
  end.

(** The names of the stored users, in collection order. *)
Definition usernames (w : World) : list string := User.username <$> users w.

Section Vocabulary.
Context {rt : Runtime}.

(** Where multer writes the file of a request, and the photo path the
    handlers store for it. *)
Definition upload_path (now : N) (file : FilePart) : string :=
  path_join uploadDir (storage_filename now file).
Definition photo_path (now : N) (file : FilePart) : string :=
  "/faculty_uploadss/" +:+ storage_filename now file.

(** The register handler from its first [await] on: what it does once
    [User.findOne] has answered [existing]. *)
Definition post_register_resume (username password : string) (salt : Salt)
    (existing : option User.t) : World → World * Response :=
  try_catch
    (match existing with
     | Some _ =>
         mret (res_status_json 400 (Message "Username already exists"))
     | None =>
         let hashedPassword := bcrypt_hash password salt in
         let user := User.mk username hashedPassword in
         User_save user;;
         mret (res_status_json 201 (Message "User registered successfully"))
     end)
    (λ err, res_status_json 500 (Message "Server error")).

(** Two registrations in flight together, the second arriving while the
    first is suspended after its lookup: both lookups read the store as it
    was, then each handler resumes in turn. The final world and the two
    responses. *)
Definition post_register_interleaved
    (u1 p1 : string) (s1 : Salt) (u2 p2 : string) (s2 : Salt) (w : World)
    : World * Response * Response :=
  let existing1 := first_named u1 (users w) in
  let existing2 := first_named u2 (users w) in
  let '(w1, r1) := post_register_resume u1 p1 s1 existing1 w in
  let '(w2, r2) := post_register_resume u2 p2 s2 existing2 w1 in
  (w2, r1, r2).

(** The disk once the file part of a request, if any, has been written. *)
Definition disk_with_upload (now : N) (part : option FilePart) (w : World)
    : gset string :=
  match part with
  | Some file => {[upload_path now file]} ∪ disk w
  | None => disk w
  end.

(** Some stored record has the id of a request: the id casts to the
    record's [_id]. *)
Definition has_record (w : World) (id : string) : Prop :=
  ∃ oid paths, castObjectId id = Some oid ∧ faculties w !! oid = Some paths.

(** The object literal the handler passes to [new Faculty]. *)
Definition created (body : Body) (file : option MulterFile) : ObjectLiteral :=
  [ ("name", body !! "name");
    ("designation", body !! "designation");
    ("department", body !! "department");
    ("photo", Some match file with
                   | Some f => "/faculty_uploadss/" +:+ filename f
                   | None => ""
                   end);
    ("publications", body !! "publications");
    ("researchProjects", body !! "researchProjects");
    ("articlesAndJournals", body !! "articlesAndJournals");
    ("workshops", body !! "workshops");
    ("coursesHandled", body !! "coursesHandled");
    ("awardsReceived", body !! "awardsReceived") ].

(** The world after the photo of [doc] has been unlinked. *)
Definition after_unlink (doc : FacultyDoc) (w : World) : World :=
  match truthy (doc.2 !! "photo") with
  | Some photo =>
      if bool_decide (path_join dirname photo ∈ disk w)
      then set_disk (λ d, d ∖ {[path_join dirname photo]}) w
      else w
  | None => w
  end.
End Vocabulary.

(** Unfolds the sequencing of awaited operations in a handler. *)
Ltac run_handler :=
  unfold try_catch, mbind, mret, Async_bind, Async_ret,
    res_json, res_status_json; simpl.

(** ** A concrete platform and world, for running the handlers *)

Module Demo.
(** The value of a hexadecimal digit. *)
Definition hex_digit (c : ascii) : option N :=
  let n := N_of_ascii c in
  if ((48 <=? n) && (n <=? 57))%N then Some (n - 48)%N
  else if ((97 <=? n) && (n <=? 102))%N then Some (n - 87)%N
  else if ((65 <=? n) && (n <=? 70))%N then Some (n - 55)%N
  else None.

Fixpoint hex_value (acc : N) (s : string) : option N :=
  match s with
  | EmptyString => Some acc
  | String c s' =>
      match hex_digit c with
      | Some d => hex_value (16 * acc + d)%N s'
      | None => None
      end
  end.

(** The cast of a string of 24 hexadecimal digits, the form in which an
    ObjectId is written; no other string is cast here. *)
Definition cast (s : string) : option N :=
  if (String.length s =? 24)%nat then hex_value 0 s else None.

(** The extension of a plain file name: from its last dot on. (Enough for
    the names used below; [path.extname] also looks at directory
    separators and at a leading dot.) *)
Fixpoint extname (s : string) : string :=
  match s with
  | EmptyString => ""
  | String c s' =>
      match extname s' with
      | EmptyString => if Ascii.eqb c "."%char then s else ""
      | e => e
      end
  end.

(** A stand-in for bcrypt that is not one-way: the hash is one salt byte
    followed by the password, and verification reads the password back. *)
Definition hash (p : string) (salt : N) : string :=
  String (ascii_of_N (salt mod 256)) p.
Definition compare (p h : string) : bool :=
  match h with
  | EmptyString => false
  | String _ q => String.eqb p q
  end.

(** Paths are joined with one separator and not normalised. *)
Definition runtime (omit : bool) : Runtime := {|
  dirname := "/srv/backend";
  path_join := λ a b, a +:+ (if String.prefix "/" b then b else "/" +:+ b);
  path_extname := extname;
  bcrypt_hash := hash;
  bcrypt_compare := compare;
  castObjectId := cast;
  omitUndefined := omit;
|}.

Definition id1 : string := "64f0c2a1b3d4e5f607182930".
Definition oid1 : N := 0x64f0c2a1b3d4e5f607182930.
Definition id2 : string := "64f0c2a1b3d4e5f607182931".
Definition oid2 : N := 0x64f0c2a1b3d4e5f607182931.

Definition ada : gmap string value :=
  {[ "name" := Str "Ada"; "designation" := Str "Professor";
     "department" := Str "CSE"; "photo" := Str "/faculty_uploadss/1700000000000.png";
     "publications" := Str "Notes"; "awardsReceived" := Str "Medal" ]}.

Definition world : World := {|
  users := [User.mk "alice" (hash "pw1" 7)];
  faculties := {[ oid1 := ada ]};
  disk := {[ "/srv/backend/faculty_uploadss/1700000000000.png" ]};
|}.

Definition empty : World := {| users := []; faculties := ∅; disk := ∅ |}.
End Demo.

(** * Properties *)

(** ** Properties of the building blocks *)

Lemma all_digits_string_of_uint (d : Decimal.uint) :
  all_digits (NilEmpty.string_of_uint d) = true.
Proof. induction d; simpl; auto. Qed.

Lemma Number_toString_digits (n : N) : all_digits (Number_toString n) = true.
Proof.
  unfold Number_toString, NilZero.string_of_uint.
  destruct (N.to_uint n); try reflexivity; apply all_digits_string_of_uint.
Qed.

Lemma Number_toString_nonempty (n : N) : Number_toString n ≠ "".
Proof.
  unfold Number_toString, NilZero.string_of_uint.
  destruct (N.to_uint n); simpl; discriminate.
Qed.

(** The numeral reads back as the number it was made from. *)
Lemma Number_toString_read_back (n : N) :
  N.of_uint <$> NilZero.uint_of_string (Number_toString n) = Some n.
Proof.
  unfold Number_toString.
  assert (Hnn : N.to_uint n ≠ Decimal.Nil).
  { destruct n as [|p]; [discriminate | apply Unsigned.to_uint_nonnil]. }
  rewrite NilZero.usu by exact Hnn. simpl.
  f_equal. apply DecimalN.Unsigned.of_to.
Qed.

Lemma new_Faculty_lookup_notin (obj : ObjectLiteral) (k : string) :
  k ∉ keys obj → new_Faculty obj !! k = None.
Proof.
  unfold keys. induction obj as [|[k' v] obj IH]; simpl; intros Hk.
  - apply lookup_empty.
  - apply not_elem_of_cons in Hk as [Hne Hk].
    destruct v; [rewrite lookup_insert_ne by congruence|]; apply IH, Hk.
Qed.

(** A constructed document has a path exactly when the literal gives it a
    defined value. *)
Lemma new_Faculty_lookup (obj : ObjectLiteral) (k : string) (v : option string) :
  NoDup (keys obj) → (k, v) ∈ obj → new_Faculty obj !! k = Str <$> v.
Proof.
  unfold keys. induction obj as [|[k' v'] obj IH]; simpl; intros Hnd Hin.
  - by apply elem_of_nil in Hin.
  - apply NoDup_cons in Hnd as [Hk' Hnd].
    apply elem_of_cons in Hin as [Heq|Hin].
    + injection Heq as <- <-. destruct v; simpl.
      * apply lookup_insert_eq.
      * apply new_Faculty_lookup_notin, Hk'.
    + assert (k ≠ k').
      { intros ->. apply Hk'. apply list_elem_of_fmap. by exists (k', v). }
      destruct v'; [rewrite lookup_insert_ne by congruence|]; by apply IH.
Qed.

Section UpdateDocument.
Context {rt : Runtime}.

Lemma apply_update_lookup_notin (update : ObjectLiteral)
    (paths : gmap string value) (k : string) :
  k ∉ keys update → apply_update update paths !! k = paths !! k.
Proof.
  unfold keys, apply_update. revert paths.
  induction update as [|[k' v] update IH]; simpl; intros paths Hk; [done|].
  apply not_elem_of_cons in Hk as [Hne Hk].
  rewrite IH by exact Hk.
  destruct v; [|destruct omitUndefined]; simpl;
    rewrite ?lookup_insert_ne by congruence; reflexivity.
Qed.

(** What an update leaves at a key of the update document: the supplied
    string; for [undefined], [null] or the old value, by the client's
    treatment of undefined keys. *)
Lemma apply_update_lookup (update : ObjectLiteral)
    (paths : gmap string value) (k : string) (v : option string) :
  NoDup (keys update) → (k, v) ∈ update →
  apply_update update paths !! k =
    match v with
    | Some s => Some (Str s)
    | None => if omitUndefined then paths !! k else Some Null
    end.
Proof.
  unfold keys. revert paths.
  induction update as [|[k' v'] update IH]; simpl; intros paths Hnd Hin.
  - by apply elem_of_nil in Hin.
  - apply NoDup_cons in Hnd as [Hk' Hnd].
    apply elem_of_cons in Hin as [Heq|Hin].
    + injection Heq as <- <-.
      change (apply_update update
                (match v with
                 | Some s => <[k := Str s]> paths
                 | None => if omitUndefined then paths else <[k := Null]> paths
                 end) !! k = match v with
                             | Some s => Some (Str s)
                             | None => if omitUndefined then paths !! k else Some Null
                             end).
      rewrite apply_update_lookup_notin by exact Hk'.
      destruct v; [|destruct omitUndefined]; simpl;
        rewrite ?lookup_insert_eq; reflexivity.
    + assert (k ≠ k').
      { intros ->. apply Hk'. apply list_elem_of_fmap. by exists (k', v). }
      change (apply_update update
                (match v' with
                 | Some s => <[k' := Str s]> paths
                 | None => if omitUndefined then paths else <[k' := Null]> paths
                 end) !! k = match v with
                             | Some s => Some (Str s)
                             | None => if omitUndefined then paths !! k else Some Null
                             end).
      rewrite (IH _ Hnd Hin).
      destruct v; [reflexivity|]. destruct omitUndefined; [|reflexivity].
      destruct v'; rewrite ?lookup_insert_ne by congruence; reflexivity.
Qed.
End UpdateDocument.

Lemma projection_fields :
  split_spaces "" "name designation department photo" = index_fields.
Proof. reflexivity. Qed.

Lemma get_api_faculty_eq (w : World) :
  get_api_faculty w
    = (w, res_json (Documents (project index_fields <$> map_to_list (faculties w)))).
Proof. reflexivity. Qed.

(** The index view has one entry per stored document: its [_id] with the
    projected paths. *)
Lemma elem_of_index (w : World) (oid : ObjectId) (v : gmap string value) :
  (oid, v) ∈ project index_fields <$> map_to_list (faculties w) ↔
  ∃ paths, faculties w !! oid = Some paths ∧
           v = filter (λ kv, kv.1 ∈ index_fields) paths.
Proof.
  rewrite list_elem_of_fmap. split.
  - intros ([oid' paths] & Heq & Hin). unfold project in Heq. simpl in Heq.
    injection Heq as -> ->. apply elem_of_map_to_list in Hin. eauto.
  - intros (paths & Hlook & ->). exists (oid, paths). split; [reflexivity|].
    by apply elem_of_map_to_list.
Qed.

Lemma index_lookup (paths : gmap string value) (k : string) :
  k ∈ index_fields →
  filter (λ kv : string * value, kv.1 ∈ index_fields) paths !! k = paths !! k.
Proof.
  intros Hk. destruct (paths !! k) as [x|] eqn:E.
  - apply map_lookup_filter_Some. split; [exact E | exact Hk].
  - apply map_lookup_filter_None. left. exact E.
Qed.

Lemma index_withholds (paths : gmap string value) (k : string) :
  k ∉ index_fields →
  filter (λ kv : string * value, kv.1 ∈ index_fields) paths !! k = None.
Proof.
  intros Hk. apply map_lookup_filter_None. right. intros x _. exact Hk.
Qed.

(** ** Properties of the account handlers *)

Section Accounts.
Context {rt : Runtime}.

Lemma first_named_app_new name us u :
  first_named name us = None →
  User.username u = name →
  first_named name (us ++ [u])%list = Some u.
Proof.
  intros Hnone Hname. unfold first_named in *.
  induction us as [|v us IH]; simpl in *.
  - rewrite Hname, String.eqb_refl. reflexivity.
  - destruct (String.eqb (User.username v) name); [discriminate|].
    apply IH, Hnone.
Qed.

Lemma post_register_fresh username password salt w :
  first_named username (users w) = None →
  post_register username password salt w =
    (set_users (λ us, (us ++ [User.mk username (bcrypt_hash password salt)])%list) w,
     res_status_json 201 (Message "User registered successfully")).
Proof.
  intros Hnone. unfold post_register, User_findOne, User_save.
  run_handler. rewrite Hnone. reflexivity.
Qed.

Lemma post_register_taken username password salt w u :
  first_named username (users w) = Some u →
  post_register username password salt w =
    (w, res_status_json 400 (Message "Username already exists")).
Proof.
  intros Hsome. unfold post_register, User_findOne.
  run_handler. rewrite Hsome. reflexivity.
Qed.

(** A registration answers 201 only when the name was free. *)
Lemma post_register_created username password salt w :
  status (post_register username password salt w).2 = 201 →
  first_named username (users w) = None.
Proof.
  destruct (first_named username (users w)) as [u|] eqn:E; [|reflexivity].
  rewrite (post_register_taken _ _ _ _ u E). simpl. discriminate.
Qed.

(** C4. Registering a name that no stored user has answers 201 "User
    registered successfully" and appends exactly one user document, whose
    password is the bcrypt hash of the supplied one; registering the same
    name again, with any password, answers 400 "Username already exists"
    and stores nothing. *)
Theorem register_twice_conflict (w : World) (u p1 p2 : string) (s1 s2 : Salt) :
  first_named u (users w) = None →
  let w1 := (post_register u p1 s1 w).1 in
  (post_register u p1 s1 w).2
    = res_status_json 201 (Message "User registered successfully") ∧
  users w1 = (users w ++ [User.mk u (bcrypt_hash p1 s1)])%list ∧
  faculties w1 = faculties w ∧ disk w1 = disk w ∧
  post_register u p2 s2 w1
    = (w1, res_status_json 400 (Message "Username already exists")).
Proof.
  intros Hfree w1. subst w1. rewrite (post_register_fresh _ _ _ _ Hfree).
  simpl. repeat split.
  eapply post_register_taken. simpl.
  apply first_named_app_new; [exact Hfree | reflexivity].
Qed.

(** C5. A login with a name no stored user has and a login with a stored
    name whose hash does not verify the supplied password get the same
    response, 400 "Invalid username or password". *)
Theorem login_failures_same_response
    (w : World) (u1 p1 u2 p2 : string) (usr : User.t) :
  first_named u1 (users w) = None →
  first_named u2 (users w) = Some usr →
  bcrypt_compare p2 (User.password usr) = false →
  (post_login u1 p1 w).2 = (post_login u2 p2 w).2 ∧
  (post_login u1 p1 w).2
    = res_status_json 400 (Message "Invalid username or password").
Proof.
  intros Hunknown Hknown Hwrong. unfold post_login, User_findOne.
  run_handler. rewrite Hunknown, Hknown, Hwrong. split; reflexivity.
Qed.

(** C8. After a registration that answered 201, a login with the same
    name and password answers 200 with the message "Welcome u" and the
    name echoed; the body has these two members only, and the login
    leaves the stored state as it was (no token or session is kept).
    bcrypt's contract, that a hash verifies the password it was made
    from, is the second premise. *)
Theorem login_after_register (w : World) (u p : string) (s : Salt) :
  status (post_register u p s w).2 = 201 →
  bcrypt_compare p (bcrypt_hash p s) = true →
  let w1 := (post_register u p s w).1 in
  post_login u p w1 = (w1, res_json (Greeting ("Welcome " +:+ u) u)) ∧
  status (post_login u p w1).2 = 200.
Proof.
  intros Hcreated Hverify w1. subst w1.
  apply post_register_created in Hcreated.
  rewrite (post_register_fresh _ _ _ _ Hcreated).
  unfold post_login, User_findOne. run_handler.
  rewrite (first_named_app_new u (users w) (User.mk u (bcrypt_hash p s)) Hcreated eq_refl).
  simpl. rewrite Hverify. split; reflexivity.
Qed.
End Accounts.

(** ** Properties of the faculty handlers *)

#[global] Arguments apply_update : simpl never.
#[global] Arguments new_Faculty : simpl never.

Section Faculty.
Context {rt : Runtime}.

Lemma unlink_photo_eq (doc : FacultyDoc) (w : World) :
  unlink_photo doc w = (after_unlink doc w, Fulfilled ()).
Proof.
  unfold unlink_photo, after_unlink, fs_existsSync, fs_unlinkSync.
  destruct (truthy (doc.2 !! "photo")) as [photo|]; [|reflexivity].
  run_handler. destruct (bool_decide _); reflexivity.
Qed.

Lemma after_unlink_stores (doc : FacultyDoc) (w : World) :
  users (after_unlink doc w) = users w ∧
  faculties (after_unlink doc w) = faculties w.
Proof.
  unfold after_unlink. destruct (truthy _); [|done].
  destruct (bool_decide _); done.
Qed.

(** The photo of [doc], when it has one, is not on disk afterwards. *)
Lemma after_unlink_gone (doc : FacultyDoc) (w : World) (photo : string) :
  truthy (doc.2 !! "photo") = Some photo →
  path_join dirname photo ∉ disk (after_unlink doc w).
Proof.
  intros Hphoto. unfold after_unlink. rewrite Hphoto.
  destruct (bool_decide _) eqn:E.
  - simpl. intros [_ Hn]%elem_of_difference. apply Hn. by apply elem_of_singleton.
  - apply bool_decide_eq_false in E. exact E.
Qed.

Lemma upload_single_stores (now : N) (part : option FilePart) (w : World) :
  users (upload_single now part w).1 = users w ∧
  faculties (upload_single now part w).1 = faculties w.
Proof. destruct part; done. Qed.

Lemma upload_single_file (now : N) (part : option FilePart) (w : World) :
  (upload_single now part w).2 = (λ p, mkMulterFile (storage_filename now p)) <$> part.
Proof. destruct part; done. Qed.

Lemma upload_single_none (now : N) (w : World) :
  upload_single now None w = (w, None).
Proof. reflexivity. Qed.

(** *** GET /api/faculty/:id *)

Lemma get_api_faculty_id_found (id : string) (w : World) oid paths :
  castObjectId id = Some oid → faculties w !! oid = Some paths →
  get_api_faculty_id id w = (w, res_json (Document (oid, paths))).
Proof.
  intros Hcast Hlook. unfold get_api_faculty_id, Faculty_findById.
  run_handler. rewrite Hcast, Hlook. reflexivity.
Qed.

Lemma get_api_faculty_id_missing (id : string) (w : World) oid :
  castObjectId id = Some oid → faculties w !! oid = None →
  get_api_faculty_id id w
    = (w, res_status_json 404 (Outcome false "Faculty not found")).
Proof.
  intros Hcast Hlook. unfold get_api_faculty_id, Faculty_findById.
  run_handler. rewrite Hcast, Hlook. reflexivity.
Qed.

Lemma get_api_faculty_id_malformed (id : string) (w : World) :
  castObjectId id = None →
  get_api_faculty_id id w
    = (w, res_status_json 500 (Outcome false "Error fetching faculty")).
Proof.
  intros Hcast. unfold get_api_faculty_id, Faculty_findById.
  run_handler. rewrite Hcast. reflexivity.
Qed.

(** *** POST /api/faculty *)

Lemma post_api_faculty_fresh now oid body part (w : World) :
  faculties w !! oid = None →
  post_api_faculty now oid body part w =
    (set_faculties <[oid := new_Faculty (created body (upload_single now part w).2)]>
       (upload_single now part w).1,
     res_json (Outcome true "Faculty saved successfully!")).
Proof.
  intros Hfresh. unfold post_api_faculty.
  pose proof (upload_single_stores now part w) as [_ Hfac].
  destruct (upload_single now part w) as [w1 file]. simpl in *.
  unfold Faculty_save. run_handler. rewrite Hfac, Hfresh. reflexivity.
Qed.

Lemma post_api_faculty_duplicate now oid body part (w : World) paths :
  faculties w !! oid = Some paths →
  post_api_faculty now oid body part w =
    ((upload_single now part w).1,
     res_status_json 500 (Outcome false "Error saving faculty")).
Proof.
  intros Hdup. unfold post_api_faculty.
  pose proof (upload_single_stores now part w) as [_ Hfac].
  destruct (upload_single now part w) as [w1 file]. simpl in *.
  unfold Faculty_save. run_handler. rewrite Hfac, Hdup. reflexivity.
Qed.

(** *** PUT /api/faculty/:id *)

Lemma put_api_faculty_id_found now id body part (w : World) oid paths :
  castObjectId id = Some oid → faculties w !! oid = Some paths →
  let w1 := (upload_single now part w).1 in
  let file := (upload_single now part w).2 in
  let paths' := apply_update (text_update body ++ photo_update file)%list paths in
  put_api_faculty_id now id body part w =
    (set_faculties <[oid := paths']>
       (match file with
        | Some _ => after_unlink (oid, paths) w1
        | None => w1
        end),
     res_json (OutcomeWith true "Faculty updated successfully!"
                           (Some (oid, paths')))).
Proof.
  intros Hcast Hlook. unfold put_api_faculty_id.
  pose proof (upload_single_stores now part w) as [_ Hfac].
  destruct (upload_single now part w) as [w1 file]. simpl in *.
  unfold Faculty_findById, Faculty_findByIdAndUpdate. run_handler.
  rewrite Hcast, Hfac, Hlook. simpl.
  destruct file as [f|]; simpl.
  - rewrite unlink_photo_eq.
    destruct (after_unlink_stores (oid, paths) w1) as [_ Hsame].
    rewrite Hsame, Hfac, Hlook. reflexivity.
  - rewrite Hfac, Hlook. reflexivity.
Qed.

Lemma put_api_faculty_id_missing now id body part (w : World) oid :
  castObjectId id = Some oid → faculties w !! oid = None →
  put_api_faculty_id now id body part w =
    ((upload_single now part w).1,
     res_status_json 404 (Outcome false "Faculty not found")).
Proof.
  intros Hcast Hlook. unfold put_api_faculty_id.
  pose proof (upload_single_stores now part w) as [_ Hfac].
  destruct (upload_single now part w) as [w1 file]. simpl in *.
  unfold Faculty_findById. run_handler. rewrite Hcast, Hfac, Hlook. reflexivity.
Qed.

Lemma put_api_faculty_id_malformed now id body part (w : World) :
  castObjectId id = None →
  put_api_faculty_id now id body part w =
    ((upload_single now part w).1,
     res_status_json 500 (Outcome false "Error updating faculty")).
Proof.
  intros Hcast. unfold put_api_faculty_id.
  destruct (upload_single now part w) as [w1 file]. simpl in *.
  unfold Faculty_findById. run_handler. rewrite Hcast. reflexivity.
Qed.

(** *** DELETE /api/faculty/:id *)

Lemma delete_api_faculty_id_found id (w : World) oid paths :
  castObjectId id = Some oid → faculties w !! oid = Some paths →
  delete_api_faculty_id id w =
    (after_unlink (oid, paths) (set_faculties (delete oid) w),
     res_json (Outcome true "Faculty deleted successfully")).
Proof.
  intros Hcast Hlook. unfold delete_api_faculty_id, Faculty_findByIdAndDelete.
  run_handler. rewrite Hcast, Hlook. rewrite unlink_photo_eq. reflexivity.
Qed.

Lemma delete_api_faculty_id_missing id (w : World) oid :
  castObjectId id = Some oid → faculties w !! oid = None →
  delete_api_faculty_id id w =
    (w, res_status_json 404 (Outcome false "Faculty not found")).
Proof.
  intros Hcast Hlook. unfold delete_api_faculty_id, Faculty_findByIdAndDelete.
  run_handler. rewrite Hcast, Hlook. reflexivity.
Qed.

Lemma delete_api_faculty_id_malformed id (w : World) :
  castObjectId id = None →
  delete_api_faculty_id id w =
    (w, res_status_json 500 (Outcome false "Error deleting faculty")).
Proof.
  intros Hcast. unfold delete_api_faculty_id, Faculty_findByIdAndDelete.
  run_handler. rewrite Hcast. reflexivity.
Qed.

(** *** The stored record after an update *)

Lemma apply_update_photo (update : ObjectLiteral) (s : string)
    (paths : gmap string value) :
  apply_update (update ++ [("photo", Some s)])%list paths
    = <["photo" := Str s]> (apply_update update paths).
Proof. unfold apply_update. rewrite foldl_app. reflexivity. Qed.

Lemma text_update_keys (body : Body) : keys (text_update body) = text_fields.
Proof. reflexivity. Qed.

Lemma text_update_elem (body : Body) (k : string) :
  k ∈ text_fields → (k, body !! k) ∈ text_update body.
Proof.
  intros Hk. unfold text_update. apply list_elem_of_fmap. by exists k.
Qed.

Lemma NoDup_text_fields : NoDup text_fields.
Proof. by compute_done. Qed.

(** Every text path after the update document of a request is applied,
    whether or not a file came with it. *)
Lemma updated_text_field (body : Body) (file : option MulterFile)
    (paths : gmap string value) (k : string) :
  k ∈ text_fields →
  apply_update (text_update body ++ photo_update file)%list paths !! k =
    match body !! k with
    | Some s => Some (Str s)
    | None => if omitUndefined then paths !! k else Some Null
    end.
Proof.
  intros Hk.
  assert (Hne : k ≠ "photo").
  { intros ->. revert Hk. by compute_done. }
  assert (Htext : apply_update (text_update body) paths !! k =
            match body !! k with
            | Some s => Some (Str s)
            | None => if omitUndefined then paths !! k else Some Null
            end).
  { apply apply_update_lookup.
    - rewrite text_update_keys. apply NoDup_text_fields.
    - by apply text_update_elem. }
  destruct file as [f|]; unfold photo_update.
  - rewrite apply_update_photo, lookup_insert_ne by congruence. exact Htext.
  - rewrite app_nil_r. exact Htext.
Qed.

Lemma updated_photo (body : Body) (file : option MulterFile)
    (paths : gmap string value) :
  apply_update (text_update body ++ photo_update file)%list paths !! "photo" =
    match file with
    | Some f => Some (Str ("/faculty_uploadss/" +:+ filename f))
    | None => paths !! "photo"
    end.
Proof.
  destruct file as [f|]; unfold photo_update.
  - rewrite apply_update_photo. apply lookup_insert_eq.
  - rewrite app_nil_r. apply apply_update_lookup_notin.
    rewrite text_update_keys. by compute_done.
Qed.
End Faculty.

(** ** The faculty handlers against their specification *)

Section FacultySpec.
Context {rt : Runtime}.

(** C1, as the code has it. For a stored record and any update request on
    it, with or without a file, every text path the request supplies holds
    the supplied string afterwards, whatever it held before. A text field
    the request omits reaches the store as an [undefined] value of the
    update document: it keeps its stored value where the store client
    drops such keys, and is [null] where the client writes them. *)
Theorem update_sets_supplied_text_fields
    (w : World) (now : N) (id : string) (oid : ObjectId)
    (paths : gmap string value) (body : Body) (part : option FilePart) :
  castObjectId id = Some oid →
  faculties w !! oid = Some paths →
  ∃ paths',
    faculties (put_api_faculty_id now id body part w).1 !! oid = Some paths' ∧
    ∀ k, k ∈ text_fields →
      paths' !! k = match body !! k with
                    | Some s => Some (Str s)
                    | None => if omitUndefined then paths !! k else Some Null
                    end.
Proof.
  intros Hcast Hlook.
  rewrite (put_api_faculty_id_found _ _ _ _ _ _ _ Hcast Hlook).
  cbn [fst faculties set_faculties].
  eexists. split; [apply lookup_insert_eq|].
  intros k Hk. exact (updated_text_field _ _ _ _ Hk).
Qed.

(** Where the store client writes the undefined-valued keys of an update
    document, every text path ends as what the request supplied for it:
    the supplied string, and [null] for a field the request omitted. *)
Lemma update_nulls_omitted_when_written
    (w : World) (now : N) (id : string) (oid : ObjectId)
    (paths : gmap string value) (body : Body) (part : option FilePart) :
  omitUndefined = false →
  castObjectId id = Some oid →
  faculties w !! oid = Some paths →
  ∃ paths',
    faculties (put_api_faculty_id now id body part w).1 !! oid = Some paths' ∧
    ∀ k, k ∈ text_fields →
      paths' !! k = Some match body !! k with
                         | Some s => Str s
                         | None => Null
                         end.
Proof.
  intros Hwrite Hcast Hlook.
  rewrite (put_api_faculty_id_found _ _ _ _ _ _ _ Hcast Hlook).
  cbn [fst faculties set_faculties].
  eexists. split; [apply lookup_insert_eq|].
  intros k Hk. rewrite (updated_text_field _ _ _ _ Hk), Hwrite.
  destruct (body !! k); reflexivity.
Qed.

(** X17. Under the other treatment of undefined keys, a text field the
    request omits keeps its stored value, and a supplied one is
    overwritten. *)
Lemma update_keeps_omitted_when_dropped
    (w : World) (now : N) (id : string) (oid : ObjectId)
    (paths : gmap string value) (body : Body) (part : option FilePart) :
  omitUndefined = true →
  castObjectId id = Some oid →
  faculties w !! oid = Some paths →
  ∃ paths',
    faculties (put_api_faculty_id now id body part w).1 !! oid = Some paths' ∧
    ∀ k, k ∈ text_fields →
      paths' !! k = match body !! k with
                    | Some s => Some (Str s)
                    | None => paths !! k
                    end.
Proof.
  intros Hdrop Hcast Hlook.
  rewrite (put_api_faculty_id_found _ _ _ _ _ _ _ Hcast Hlook).
  cbn [fst faculties set_faculties].
  eexists. split; [apply lookup_insert_eq|].
  intros k Hk. rewrite (updated_text_field _ _ _ _ Hk), Hdrop. reflexivity.
Qed.

(** C2. For a stored record, an update that carries a file leaves no file
    at the path of the record's previous photo, stores
    [/faculty_uploadss/<name of the new file>] as its photo, and the
    record and the index view then show that path for it; an update that
    carries no file leaves the photo path and the disk as they were. In
    both cases the response has the same shape and every other path of
    the stored record is what the update without a file would store. *)
Theorem update_replaces_photo
    (w : World) (now : N) (id : string) (oid : ObjectId)
    (paths : gmap string value) (body : Body) (part : option FilePart) :
  castObjectId id = Some oid →
  faculties w !! oid = Some paths →
  let w' := (put_api_faculty_id now id body part w).1 in
  ∃ paths',
    faculties w' !! oid = Some paths' ∧
    (put_api_faculty_id now id body part w).2
      = res_json (OutcomeWith true "Faculty updated successfully!"
                              (Some (oid, paths'))) ∧
    (∀ paths0 k,
       faculties (put_api_faculty_id now id body None w).1 !! oid = Some paths0 →
       k ≠ "photo" → paths' !! k = paths0 !! k) ∧
    match part with
    | Some file =>
        let photo := "/faculty_uploadss/" +:+ Number_toString now
                       +:+ path_extname (originalname file) in
        (∀ old, truthy (paths !! "photo") = Some old →
                path_join dirname old ∉ disk w') ∧
        paths' !! "photo" = Some (Str photo) ∧
        (∀ id', castObjectId id' = Some oid →
                (get_api_faculty_id id' w').2 = res_json (Document (oid, paths'))) ∧
        ∃ docs, (get_api_faculty w').2 = res_json (Documents docs) ∧
                (∃ v, (oid, v) ∈ docs) ∧
                ∀ v, (oid, v) ∈ docs → v !! "photo" = Some (Str photo)
    | None =>
        paths' !! "photo" = paths !! "photo" ∧ disk w' = disk w
    end.
Proof.
  intros Hcast Hlook w'. subst w'.
  rewrite (put_api_faculty_id_found _ _ _ _ _ _ _ Hcast Hlook).
  rewrite (put_api_faculty_id_found _ _ _ None _ _ _ Hcast Hlook).
  rewrite upload_single_file. cbn [fst snd faculties set_faculties].
  eexists. split; [apply lookup_insert_eq|]. split; [reflexivity|]. split.
  { intros paths0 k Hp0 Hk. rewrite lookup_insert_eq in Hp0.
    injection Hp0 as <-. destruct part as [file|]; [|reflexivity].
    change (apply_update
              (text_update body ++
               [("photo", Some ("/faculty_uploadss/" +:+ storage_filename now file))])%list
              paths !! k = apply_update (text_update body) paths !! k).
    rewrite apply_update_photo, lookup_insert_ne by congruence. reflexivity. }
  destruct part as [file|];
    cbn -[get_api_faculty get_api_faculty_id apply_update text_update after_unlink].
  - set (f := mkMulterFile (storage_filename now file)).
    set (paths' := apply_update _ paths).
    assert (Hphoto : paths' !! "photo" = Some (Str ("/faculty_uploadss/" +:+ filename f))).
    { subst paths'. exact (updated_photo body (Some f) paths). }
    split; [|split; [|split]].
    + intros old Hold. by apply after_unlink_gone.
    + exact Hphoto.
    + intros id' Hcast'. erewrite get_api_faculty_id_found; [reflexivity|exact Hcast'|].
      apply lookup_insert_eq.
    + rewrite get_api_faculty_eq. eexists. split; [reflexivity|]. split.
      * eexists. apply elem_of_index. eexists. split; [|reflexivity].
        simpl. apply lookup_insert_eq.
      * intros v (p & Hp & ->)%elem_of_index. simpl in Hp.
        rewrite lookup_insert_eq in Hp. injection Hp as <-.
        rewrite index_lookup by (by compute_done). exact Hphoto.
  - split; [|reflexivity]. exact (updated_photo body None paths).
Qed.
(** C3, as the code has it. When the id casts to an ObjectId that no
    stored record has, the delete answers 404 "Faculty not found" and
    changes nothing; when a record has it, the delete answers 200, removes
    that record and no other, a later get of the id answers 404, the index
    view has no entry for it, and a photo the record named is not on disk
    afterwards. When the id does not cast, the delete answers 500 "Error
    deleting faculty" and changes nothing. *)
Theorem delete_removes_record_and_photo (w : World) (id : string) :
  match castObjectId id with
  | None =>
      delete_api_faculty_id id w
        = (w, res_status_json 500 (Outcome false "Error deleting faculty"))
  | Some oid =>
      match faculties w !! oid with
      | None =>
          delete_api_faculty_id id w
            = (w, res_status_json 404 (Outcome false "Faculty not found"))
      | Some paths =>
          let w' := (delete_api_faculty_id id w).1 in
          (delete_api_faculty_id id w).2
            = res_json (Outcome true "Faculty deleted successfully") ∧
          faculties w' = delete oid (faculties w) ∧
          users w' = users w ∧
          (get_api_faculty_id id w').2
            = res_status_json 404 (Outcome false "Faculty not found") ∧
          (∃ docs, (get_api_faculty w').2 = res_json (Documents docs) ∧
                   ∀ v, (oid, v) ∉ docs) ∧
          (∀ photo, truthy (paths !! "photo") = Some photo →
                    path_join dirname photo ∉ disk w')
      end
  end.
Proof.
  destruct (castObjectId id) as [oid|] eqn:Hcast;
    [|exact (delete_api_faculty_id_malformed _ _ Hcast)].
  destruct (faculties w !! oid) as [paths|] eqn:Hlook;
    [|exact (delete_api_faculty_id_missing _ _ _ Hcast Hlook)].
  rewrite (delete_api_faculty_id_found _ _ _ _ Hcast Hlook).
  cbn [fst snd].
  destruct (after_unlink_stores (oid, paths) (set_faculties (delete oid) w))
    as [Husers Hfac].
  split; [reflexivity|]. split; [exact Hfac|]. split; [exact Husers|].
  assert (Hgone : faculties (after_unlink (oid, paths)
                    (set_faculties (delete oid) w)) !! oid = None).
  { rewrite Hfac. apply lookup_delete_eq. }
  split; [|split].
  - by rewrite (get_api_faculty_id_missing _ _ _ Hcast Hgone).
  - rewrite get_api_faculty_eq. eexists. split; [reflexivity|].
    intros v (p & Hp & _)%elem_of_index. congruence.
  - intros photo Hphoto. by apply after_unlink_gone.
Qed.

(** C6. Every record of the index view has no path besides name,
    designation, department and photo, so none of publications,
    researchProjects, articlesAndJournals, workshops, coursesHandled and
    awardsReceived, and shows those four as stored; a get of a stored
    record answers the record whole, each of its paths as stored. (Each
    record comes with its [_id] in both views.) *)
Theorem index_withholds_details_get_returns_all (w : World) :
  (∃ docs,
     get_api_faculty w = (w, res_json (Documents docs)) ∧
     ∀ oid v, (oid, v) ∈ docs →
       (∀ k, is_Some (v !! k) → k ∈ index_fields) ∧
       (∀ k, k ∈ detail_fields → v !! k = None) ∧
       (∃ paths, faculties w !! oid = Some paths ∧
                 ∀ k, k ∈ index_fields → v !! k = paths !! k)) ∧
  (∀ id oid paths,
     castObjectId id = Some oid → faculties w !! oid = Some paths →
     ∃ doc, get_api_faculty_id id w = (w, res_json (Document doc)) ∧
            doc.1 = oid ∧
            (∀ k, doc.2 !! k = paths !! k) ∧
            (∀ k, k ∈ detail_fields → doc.2 !! k = paths !! k)).
Proof.
  split.
  - rewrite get_api_faculty_eq. eexists. split; [reflexivity|].
    intros oid v (paths & Hlook & ->)%elem_of_index. split; [|split].
    + intros k [x Hx]. by apply map_lookup_filter_Some in Hx as [_ Hk].
    + intros k Hk. apply index_withholds.
      unfold detail_fields in Hk.
      repeat (apply elem_of_cons in Hk as [->|Hk]; [by compute_done|]).
      by apply elem_of_nil in Hk.
    + exists paths. split; [exact Hlook|]. intros k Hk. by apply index_lookup.
  - intros id oid paths Hcast Hlook. exists (oid, paths).
    rewrite (get_api_faculty_id_found _ _ _ _ Hcast Hlook). done.
Qed.

(** C7. A create whose drawn [_id] is new stores a record whose photo is
    [/faculty_uploadss/<digits><ext>] when a file came with the request,
    where <digits> is the decimal numeral of the clock's epoch
    milliseconds (a non-empty string of digits that reads back as that
    number) and <ext> is path.extname of the file's original name, and is
    the empty string when no file came; a get of the record and the index
    view then show that photo. *)
Theorem create_stores_photo_path
    (w : World) (now : N) (oid : ObjectId) (body : Body)
    (part : option FilePart) :
  faculties w !! oid = None →
  let w' := (post_api_faculty now oid body part w).1 in
  let digits := Number_toString now in
  let photo := match part with
               | Some file => "/faculty_uploadss/" +:+ digits
                                +:+ path_extname (originalname file)
               | None => ""
               end in
  all_digits digits = true ∧ digits ≠ "" ∧
  N.of_uint <$> NilZero.uint_of_string digits = Some now ∧
  ∃ paths,
    faculties w' !! oid = Some paths ∧
    paths !! "photo" = Some (Str photo) ∧
    (∀ id, castObjectId id = Some oid →
           (get_api_faculty_id id w').2 = res_json (Document (oid, paths))) ∧
    ∃ docs v, (get_api_faculty w').2 = res_json (Documents docs) ∧
              (oid, v) ∈ docs ∧ v !! "photo" = Some (Str photo).
Proof.
  intros Hfresh w' digits photo. subst w' digits.
  split; [apply Number_toString_digits|].
  split; [apply Number_toString_nonempty|].
  split; [apply Number_toString_read_back|].
  rewrite (post_api_faculty_fresh _ _ _ _ _ Hfresh). cbn [fst].
  set (paths := new_Faculty _).
  assert (Hphoto : paths !! "photo" = Some (Str photo)).
  { subst paths photo.
    rewrite (new_Faculty_lookup _ "photo" (Some match (upload_single now part w).2 with
               | Some f => "/faculty_uploadss/" +:+ filename f
               | None => ""
               end)).
    - destruct part; reflexivity.
    - by compute_done.
    - unfold created. set_solver. }
  assert (Hstored : faculties (set_faculties <[oid := paths]>
                                 (upload_single now part w).1) !! oid = Some paths).
  { apply lookup_insert_eq. }
  exists paths. split; [exact Hstored|]. split; [exact Hphoto|]. split.
  - intros id Hcast. by rewrite (get_api_faculty_id_found _ _ _ _ Hcast Hstored).
  - rewrite get_api_faculty_eq. eexists _, _. split; [reflexivity|]. split.
    + apply elem_of_index. exists paths. split; [exact Hstored | reflexivity].
    + rewrite index_lookup by (by compute_done). exact Hphoto.
Qed.

(** C9. For an id that does not cast to an ObjectId, the get, the update
    and the delete answer 500 with the handler's generic message (and a
    false success flag), not 404; whenever one of them answers 404, the
    id casts to an ObjectId that no stored record has. *)
Theorem malformed_id_answers_500
    (w : World) (now : N) (id : string) (body : Body)
    (part : option FilePart) :
  (castObjectId id = None →
     (get_api_faculty_id id w).2
       = res_status_json 500 (Outcome false "Error fetching faculty") ∧
     (put_api_faculty_id now id body part w).2
       = res_status_json 500 (Outcome false "Error updating faculty") ∧
     (delete_api_faculty_id id w).2
       = res_status_json 500 (Outcome false "Error deleting faculty")) ∧
  (status (get_api_faculty_id id w).2 = 404 ∨
   status (put_api_faculty_id now id body part w).2 = 404 ∨
   status (delete_api_faculty_id id w).2 = 404 →
     ∃ oid, castObjectId id = Some oid ∧ faculties w !! oid = None).
Proof.
  split.
  - intros Hcast.
    rewrite (get_api_faculty_id_malformed _ _ Hcast),
      (put_api_faculty_id_malformed _ _ _ _ _ Hcast),
      (delete_api_faculty_id_malformed _ _ Hcast). done.
  - destruct (castObjectId id) as [oid|] eqn:Hcast.
    + destruct (faculties w !! oid) as [paths|] eqn:Hlook; [|by eauto].
      rewrite (get_api_faculty_id_found _ _ _ _ Hcast Hlook),
        (put_api_faculty_id_found _ _ _ _ _ _ _ Hcast Hlook),
        (delete_api_faculty_id_found _ _ _ _ Hcast Hlook).
      cbn [snd status res_json]. intros [?|[?|?]]; discriminate.
    + rewrite (get_api_faculty_id_malformed _ _ Hcast),
        (put_api_faculty_id_malformed _ _ _ _ _ Hcast),
        (delete_api_faculty_id_malformed _ _ Hcast).
      cbn [snd status res_status_json]. intros [?|[?|?]]; discriminate.
Qed.

(** C10. A create request in which no text field is present and no file
    comes is accepted: with a new [_id] drawn, the answer is 200
    { success: true, .. }, and exactly one record is added, whose only
    path is [photo], the empty string; nothing else changes. *)
Theorem create_accepts_empty_request
    (w : World) (now : N) (oid : ObjectId) (body : Body) :
  (∀ k, k ∈ text_fields → body !! k = None) →
  faculties w !! oid = None →
  post_api_faculty now oid body None w =
    (set_faculties <[oid := {["photo" := Str ""]}]> w,
     res_json (Outcome true "Faculty saved successfully!")).
Proof.
  intros Habsent Hfresh.
  rewrite (post_api_faculty_fresh _ _ _ _ _ Hfresh).
  rewrite upload_single_none. cbn [fst snd]. unfold created.
  rewrite !Habsent by (by compute_done). reflexivity.
Qed.
End FacultySpec.

(** * The handlers run on the sample world

    [Demo.world] holds the user alice and one faculty record, Ada, whose
    photo is on disk; the platform is [Demo.runtime]. *)

(** The session of the specification's example, from an empty store. *)
Example alice_session :
  let run := Demo.runtime false in
  let s1 := post_register (rt := run) "alice" "pw1" 7 Demo.empty in
  let s2 := post_register (rt := run) "alice" "pw2" 8 s1.1 in
  let s3 := post_login (rt := run) "alice" "pw1" s2.1 in
  let s4 := post_login (rt := run) "alice" "wrong" s3.1 in
  [s1.2; s2.2; s3.2; s4.2] =
    [ res_status_json 201 (Message "User registered successfully");
      res_status_json 400 (Message "Username already exists");
      res_json (Greeting "Welcome alice" "alice");
      res_status_json 400 (Message "Invalid username or password") ] ∧
  s4.1 = s1.1.
Proof. split; reflexivity. Qed.

Lemma register_twice_conflict_run :
  first_named "bob" (users Demo.world) = None ∧
  (post_register (rt := Demo.runtime false) "bob" "pw" 3 Demo.world).2
    = res_status_json 201 (Message "User registered successfully") ∧
  (post_register (rt := Demo.runtime false) "bob" "other" 9
     (post_register (rt := Demo.runtime false) "bob" "pw" 3 Demo.world).1).2
    = res_status_json 400 (Message "Username already exists").
Proof.
  destruct (register_twice_conflict (rt := Demo.runtime false)
              Demo.world "bob" "pw" "other" 3 9 eq_refl)
    as (Hfirst & _ & _ & _ & Hsecond).
  split; [reflexivity|]. split; [exact Hfirst|]. by rewrite Hsecond.
Defined.

Lemma login_failures_same_response_run :
  (post_login (rt := Demo.runtime false) "mallory" "pw1" Demo.world).2
    = (post_login (rt := Demo.runtime false) "alice" "guess" Demo.world).2.
Proof.
  exact (proj1 (login_failures_same_response (rt := Demo.runtime false)
                  Demo.world "mallory" "pw1" "alice" "guess"
                  (User.mk "alice" (Demo.hash "pw1" 7))
                  eq_refl eq_refl eq_refl)).
Defined.

Lemma login_after_register_run :
  post_login (rt := Demo.runtime false) "alice" "pw1"
    (post_register (rt := Demo.runtime false) "alice" "pw1" 7 Demo.empty).1
  = ((post_register (rt := Demo.runtime false) "alice" "pw1" 7 Demo.empty).1,
     res_json (Greeting "Welcome alice" "alice")).
Proof.
  exact (proj1 (login_after_register (rt := Demo.runtime false)
                  Demo.empty "alice" "pw1" 7 eq_refl eq_refl)).
Defined.

(** C1, as stated, fails: on a store client that drops undefined keys, an
    update of Ada that supplies only a name leaves her designation, which
    the request omits, as it was stored. *)
Lemma update_omitted_field_keeps_stored_value :
  let w' := (put_api_faculty_id (rt := Demo.runtime true) 5 Demo.id1
               {["name" := "Bob"]} None Demo.world).1 in
  faculties Demo.world !! Demo.oid1 = Some Demo.ada ∧
  ({["name" := "Bob"]} : gmap string string) !! "designation" = None ∧
  ∃ paths',
    faculties w' !! Demo.oid1 = Some paths' ∧
    paths' !! "name" = Some (Str "Bob") ∧
    paths' !! "designation" = Some (Str "Professor").
Proof.
  cbv zeta. split; [reflexivity|]. split; [reflexivity|].
  eexists. split; [reflexivity|]. split; reflexivity.
Qed.

Lemma update_sets_supplied_text_fields_run :
  ∃ paths',
    faculties (put_api_faculty_id (rt := Demo.runtime true) 5 Demo.id1
                 {["name" := "Bob"; "workshops" := ""]} None Demo.world).1
      !! Demo.oid1 = Some paths' ∧
    paths' !! "name" = Some (Str "Bob") ∧
    paths' !! "workshops" = Some (Str "") ∧
    paths' !! "department" = Some (Str "CSE").
Proof.
  destruct (update_sets_supplied_text_fields (rt := Demo.runtime true)
              Demo.world 5 Demo.id1 Demo.oid1 Demo.ada
              {["name" := "Bob"; "workshops" := ""]} None
              eq_refl eq_refl) as (paths' & Hstored & Hall).
  exists paths'. split; [exact Hstored|]. split; [|split].
  - apply (Hall "name"). by compute_done.
  - apply (Hall "workshops"). by compute_done.
  - apply (Hall "department"). by compute_done.
Defined.

Lemma update_replaces_photo_run :
  let w' := (put_api_faculty_id (rt := Demo.runtime false) 1700000000555 Demo.id1
               {["name" := "Ada"]} (Some (mkFilePart "portrait.jpg")) Demo.world).1 in
  ∃ paths',
    faculties w' !! Demo.oid1 = Some paths' ∧
    paths' !! "photo" = Some (Str "/faculty_uploadss/1700000000555.jpg") ∧
    "/srv/backend/faculty_uploadss/1700000000000.png" ∉ disk w'.
Proof.
  destruct (update_replaces_photo (rt := Demo.runtime false)
              Demo.world 1700000000555 Demo.id1 Demo.oid1 Demo.ada
              {["name" := "Ada"]} (Some (mkFilePart "portrait.jpg"))
              eq_refl eq_refl)
    as (paths' & Hstored & _ & _ & Hgone & Hphoto & _).
  exists paths'. split; [exact Hstored|]. split; [exact Hphoto|].
  exact (Hgone "/faculty_uploadss/1700000000000.png" eq_refl).
Defined.

(** C3, as stated, fails: no stored record has the id "zzz", and the
    delete answers 500 "Error deleting faculty", not 404. *)
Lemma delete_unknown_malformed_id_answers_500 :
  ¬ has_record (rt := Demo.runtime false) Demo.world "zzz" ∧
  delete_api_faculty_id (rt := Demo.runtime false) "zzz" Demo.world
    = (Demo.world, res_status_json 500 (Outcome false "Error deleting faculty")) ∧
  status (delete_api_faculty_id (rt := Demo.runtime false) "zzz" Demo.world).2 ≠ 404.
Proof.
  split; [|split].
  - intros (oid & paths & Hcast & _). discriminate Hcast.
  - reflexivity.
  - discriminate.
Qed.

Lemma delete_removes_record_and_photo_run :
  let r := delete_api_faculty_id (rt := Demo.runtime false) Demo.id1 Demo.world in
  r.2 = res_json (Outcome true "Faculty deleted successfully") ∧
  faculties r.1 = ∅ ∧
  ("/srv/backend/faculty_uploadss/1700000000000.png" ∉ disk r.1) ∧
  delete_api_faculty_id (rt := Demo.runtime false) Demo.id2 Demo.world
    = (Demo.world, res_status_json 404 (Outcome false "Faculty not found")).
Proof.
  pose proof (delete_removes_record_and_photo (rt := Demo.runtime false)
                Demo.world Demo.id1) as Hfound.
  pose proof (delete_removes_record_and_photo (rt := Demo.runtime false)
                Demo.world Demo.id2) as Hmissing.
  change (castObjectId Demo.id1) with (Some Demo.oid1) in Hfound.
  change (castObjectId Demo.id2) with (Some Demo.oid2) in Hmissing.
  change (faculties Demo.world !! Demo.oid1) with (Some Demo.ada) in Hfound.
  change (faculties Demo.world !! Demo.oid2) with (@None (gmap string value)) in Hmissing.
  destruct Hfound as (Hok & Hfac & _ & _ & _ & Hgone).
  split; [exact Hok|]. split; [|split].
  - rewrite Hfac. reflexivity.
  - exact (Hgone "/faculty_uploadss/1700000000000.png" eq_refl).
  - exact Hmissing.
Defined.

Lemma index_withholds_details_get_returns_all_run :
  (∃ docs, get_api_faculty Demo.world = (Demo.world, res_json (Documents docs)) ∧
           ∀ oid v, (oid, v) ∈ docs → v !! "publications" = None) ∧
  get_api_faculty_id (rt := Demo.runtime false) Demo.id1 Demo.world
    = (Demo.world, res_json (Document (Demo.oid1, Demo.ada))).
Proof.
  destruct (index_withholds_details_get_returns_all (rt := Demo.runtime false)
              Demo.world) as [(docs & Hlist & Hdocs) Hget].
  split.
  - exists docs. split; [exact Hlist|]. intros oid v Hin.
    destruct (Hdocs oid v Hin) as (_ & Hdetail & _).
    apply Hdetail. by compute_done.
  - destruct (Hget Demo.id1 Demo.oid1 Demo.ada eq_refl eq_refl)
      as ([oid paths] & Heq & Hoid & Hpaths & _).
    simpl in Hoid, Hpaths. subst oid.
    assert (paths = Demo.ada) as -> by (apply map_eq; exact Hpaths).
    exact Heq.
Defined.

Lemma create_stores_photo_path_run :
  ∃ paths,
    faculties (post_api_faculty (rt := Demo.runtime false) 1700000000555 Demo.oid2
                 {["name" := "Grace"]} (Some (mkFilePart "grace.hopper.png"))
                 Demo.world).1 !! Demo.oid2 = Some paths ∧
    paths !! "photo" = Some (Str "/faculty_uploadss/1700000000555.png").
Proof.
  destruct (create_stores_photo_path (rt := Demo.runtime false)
              Demo.world 1700000000555 Demo.oid2 {["name" := "Grace"]}
              (Some (mkFilePart "grace.hopper.png")) eq_refl)
    as (_ & _ & _ & paths & Hstored & Hphoto & _).
  exists paths. split; [exact Hstored | exact Hphoto].
Defined.

Lemma malformed_id_answers_500_run :
  (get_api_faculty_id (rt := Demo.runtime false) "zzz" Demo.world).2
    = res_status_json 500 (Outcome false "Error fetching faculty") ∧
  (put_api_faculty_id (rt := Demo.runtime false) 5 "zzz" ∅ None Demo.world).2
    = res_status_json 500 (Outcome false "Error updating faculty") ∧
  (delete_api_faculty_id (rt := Demo.runtime false) "zzz" Demo.world).2
    = res_status_json 500 (Outcome false "Error deleting faculty").
Proof.
  exact (proj1 (malformed_id_answers_500 (rt := Demo.runtime false)
                  Demo.world 5 "zzz" ∅ None) eq_refl).
Defined.

Lemma create_accepts_empty_request_run :
  post_api_faculty (rt := Demo.runtime false) 5 Demo.oid2 ∅ None Demo.world
    = (set_faculties <[Demo.oid2 := {["photo" := Str ""]}]> Demo.world,
       res_json (Outcome true "Faculty saved successfully!")).
Proof.
  apply (create_accepts_empty_request (rt := Demo.runtime false)
           Demo.world 5 Demo.oid2 ∅).
  - intros k _. apply lookup_empty.
  - reflexivity.
Defined.

(** * Further properties of the handlers *)

(** ** Strings *)

Lemma length_append (a b : string) :
  String.length (a +:+ b) = String.length a + String.length b.
Proof. induction a as [|c a IH]; simpl; [reflexivity | by rewrite IH]. Qed.

Lemma append_inj_l (a b e : string) : a +:+ e = b +:+ e → a = b.
Proof.
  revert b. induction a as [|c a IH]; intros [|d b] Heq; simpl in *.
  - reflexivity.
  - apply (f_equal String.length) in Heq.
    rewrite ?length_append in Heq. simpl in Heq. rewrite ?length_append in Heq. lia.
  - apply (f_equal String.length) in Heq.
    rewrite ?length_append in Heq. simpl in Heq. rewrite ?length_append in Heq. lia.
  - injection Heq as -> Heq. f_equal. by apply IH.
Qed.

Lemma Number_toString_inj (n m : N) :
  Number_toString n = Number_toString m → n = m.
Proof.
  intros Heq. pose proof (Number_toString_read_back n) as Hn.
  rewrite Heq, Number_toString_read_back in Hn. congruence.
Qed.

(** ** Accounts *)

Lemma first_named_None (name : string) (us : list User.t) :
  first_named name us = None ↔ name ∉ User.username <$> us.
Proof.
  unfold first_named. induction us as [|v us IH]; simpl.
  - split; [intros _; apply not_elem_of_nil | done].
  - destruct (String.eqb (User.username v) name) eqn:E.
    + apply String.eqb_eq in E. split; [discriminate|].
      intros Hnotin. exfalso. apply Hnotin. rewrite E. by left.
    + apply String.eqb_neq in E. rewrite IH. split.
      * intros Hnotin [Heq|Hin]%elem_of_cons; [by symmetry in Heq | by apply Hnotin].
      * intros Hnotin Hin. apply Hnotin. by right.
Qed.

Lemma first_named_app_old (name : string) (us more : list User.t) (u : User.t) :
  first_named name us = Some u → first_named name (us ++ more)%list = Some u.
Proof.
  unfold first_named. induction us as [|v us IH]; simpl; [discriminate|].
  destruct (String.eqb (User.username v) name); [done | exact IH].
Qed.

Section AccountsFurther.
Context {rt : Runtime}.

(** The answer to a login is read off the first stored user of that name. *)
Lemma post_login_eq (u p : string) (w : World) :
  post_login u p w =
    (w, match first_named u (users w) with
        | Some usr =>
            if bcrypt_compare p (User.password usr)
            then res_json (Greeting ("Welcome " +:+ User.username usr)
                                    (User.username usr))
            else res_status_json 400 (Message "Invalid username or password")
        | None => res_status_json 400 (Message "Invalid username or password")
        end).
Proof.
  unfold post_login, User_findOne. run_handler.
  destruct (first_named u (users w)) as [usr|]; [|reflexivity].
  destruct (bcrypt_compare p (User.password usr)); reflexivity.
Qed.

(** A registration that runs from its lookup to its save with no other
    request in between keeps the stored user names pairwise distinct. *)
Lemma register_alone_keeps_usernames_unique (w : World) (u p : string) (s : Salt) :
  NoDup (usernames w) → NoDup (usernames (post_register u p s w).1).
Proof.
  intros Hnd. destruct (first_named u (users w)) as [usr|] eqn:E.
  - by rewrite (post_register_taken _ _ _ _ usr E).
  - rewrite (post_register_fresh _ _ _ _ E). unfold usernames. simpl.
    rewrite fmap_app. apply NoDup_app. split; [exact Hnd|]. split.
    + intros x Hx [->|Hnil%elem_of_nil]%elem_of_cons; [|done].
      by apply first_named_None in E.
    + simpl. apply NoDup_singleton.
Qed.

Lemma post_register_resumes (u p : string) (s : Salt) (w : World) :
  post_register u p s w = post_register_resume u p s (first_named u (users w)) w.
Proof.
  unfold post_register, post_register_resume, User_findOne. run_handler.
  destruct (first_named u (users w)); reflexivity.
Qed.

(** X1. The handler is its lookup followed by the rest of it
    ([post_register_resume]). Run alone, from lookup to save with no other
    request in between, a registration keeps the stored user names
    pairwise distinct. That is not so for two registrations in flight
    together: when both look a free name up before either saves, both are
    answered 201 and the name is stored twice. *)
Theorem register_unique_unless_interleaved
    (w : World) (u p1 p2 : string) (s1 s2 : Salt) :
  post_register u p1 s1 w
    = post_register_resume u p1 s1 (first_named u (users w)) w ∧
  (NoDup (usernames w) → NoDup (usernames (post_register u p1 s1 w).1)) ∧
  (first_named u (users w) = None →
     let r := post_register_interleaved u p1 s1 u p2 s2 w in
     r.1.2 = res_status_json 201 (Message "User registered successfully") ∧
     r.2 = res_status_json 201 (Message "User registered successfully") ∧
     users r.1.1 = (users w ++ [User.mk u (bcrypt_hash p1 s1);
                                User.mk u (bcrypt_hash p2 s2)])%list ∧
     ¬ NoDup (usernames r.1.1)).
Proof.
  split; [apply post_register_resumes|].
  split; [apply register_alone_keeps_usernames_unique|].
  intros Hfree r. subst r. unfold post_register_interleaved.
  rewrite Hfree. unfold post_register_resume, User_save. run_handler.
  split; [reflexivity|]. split; [reflexivity|].
  split; [by rewrite <- app_assoc|].
  unfold usernames. simpl. rewrite <- app_assoc, fmap_app. simpl.
  intros [_ [_ Hdup]]%NoDup_app. apply NoDup_cons in Hdup as [Hin _].
  apply Hin. by left.
Qed.

(** X2. A registration never locks an account out: a login that is
    answered 200 gets the same answer after any registration, accepted or
    refused, under any name. *)
Theorem register_preserves_logins
    (w : World) (u p : string) (s : Salt) (u0 p0 : string) :
  status (post_login u0 p0 w).2 = 200 →
  (post_login u0 p0 (post_register u p s w).1).2 = (post_login u0 p0 w).2.
Proof.
  rewrite !post_login_eq. cbn [snd].
  destruct (first_named u0 (users w)) as [usr|] eqn:E0; [|discriminate].
  intros _. destruct (first_named u (users w)) as [taken|] eqn:E.
  - rewrite (post_register_taken _ _ _ _ taken E). cbn [fst]. by rewrite E0.
  - rewrite (post_register_fresh _ _ _ _ E). cbn [fst users set_users].
    by rewrite (first_named_app_old _ _ _ _ E0).
Qed.
End AccountsFurther.

Lemma register_unique_unless_interleaved_run :
  NoDup (usernames Demo.world) ∧
  NoDup (usernames (post_register (rt := Demo.runtime false) "bob" "pw" 3 Demo.world).1) ∧
  usernames (post_register_interleaved (rt := Demo.runtime false)
               "bob" "pw" 3 "bob" "other" 9 Demo.world).1.1
    = ["alice"; "bob"; "bob"].
Proof.
  destruct (register_unique_unless_interleaved (rt := Demo.runtime false)
              Demo.world "bob" "pw" "other" 3 9) as (_ & Halone & Hrace).
  assert (Hnd : NoDup (usernames Demo.world)) by (by compute_done).
  split; [exact Hnd|]. split; [exact (Halone Hnd)|].
  destruct (Hrace eq_refl) as (_ & _ & Husers & _).
  unfold usernames. rewrite Husers. reflexivity.
Defined.

Lemma register_preserves_logins_run :
  (post_login (rt := Demo.runtime false) "alice" "pw1"
     (post_register (rt := Demo.runtime false) "bob" "pw" 3 Demo.world).1).2
  = res_json (Greeting "Welcome alice" "alice").
Proof.
  exact (register_preserves_logins (rt := Demo.runtime false)
           Demo.world "bob" "pw" 3 "alice" "pw1" eq_refl).
Defined.

(** ** Faculty records and the disk *)

Lemma World_eq (a b : World) :
  users a = users b → faculties a = faculties b → disk a = disk b → a = b.
Proof. destruct a, b; simpl; by intros -> -> ->. Qed.

Section FacultyFurther.
Context {rt : Runtime}.

Lemma upload_single_disk (now : N) (part : option FilePart) (w : World) :
  disk (upload_single now part w).1 = disk_with_upload now part w.
Proof. destruct part; reflexivity. Qed.

(** Unlinking the photo of a document removes that one path and nothing
    else. *)
Lemma after_unlink_disk (doc : FacultyDoc) (w : World) (p : string) :
  p ∈ disk (after_unlink doc w) ↔
  p ∈ disk w ∧ ∀ old, truthy (doc.2 !! "photo") = Some old → p ≠ path_join dirname old.
Proof.
  unfold after_unlink. destruct (truthy (doc.2 !! "photo")) as [photo|].
  - destruct (bool_decide _) eqn:E.
    + simpl. rewrite elem_of_difference, elem_of_singleton. split.
      * intros [Hin Hne]. split; [exact Hin|]. by intros old [= <-].
      * intros [Hin Hne]. split; [exact Hin | by apply Hne].
    + apply bool_decide_eq_false in E. split.
      * intros Hin. split; [exact Hin|]. intros old [= <-] ->. by apply E.
      * by intros [Hin _].
  - split; [intros Hin; split; [exact Hin | discriminate] | by intros [Hin _]].
Qed.

(** X3. Each handler keeps to its own part of the state: a login, the
    index view and a get change nothing, whatever they answer; a
    registration changes neither the faculty records nor the disk; a
    create, an update and a delete never change the stored users. *)
Theorem handlers_keep_to_their_store
    (w : World) (u p : string) (s : Salt) (now : N) (oid : ObjectId)
    (id : string) (body : Body) (part : option FilePart) :
  (post_login u p w).1 = w ∧
  (get_api_faculty w).1 = w ∧
  (get_api_faculty_id id w).1 = w ∧
  faculties (post_register u p s w).1 = faculties w ∧
  disk (post_register u p s w).1 = disk w ∧
  users (post_api_faculty now oid body part w).1 = users w ∧
  users (put_api_faculty_id now id body part w).1 = users w ∧
  users (delete_api_faculty_id id w).1 = users w.
Proof.
  pose proof (upload_single_stores now part w) as [Hup _].
  split; [by rewrite post_login_eq|]. split; [reflexivity|].
  repeat split.
  - destruct (castObjectId id) as [o|] eqn:Hcast;
      [destruct (faculties w !! o) as [paths|] eqn:Hlook|].
    + by rewrite (get_api_faculty_id_found _ _ _ _ Hcast Hlook).
    + by rewrite (get_api_faculty_id_missing _ _ _ Hcast Hlook).
    + by rewrite (get_api_faculty_id_malformed _ _ Hcast).
  - destruct (first_named u (users w)) as [usr|] eqn:E.
    + by rewrite (post_register_taken _ _ _ _ usr E).
    + by rewrite (post_register_fresh _ _ _ _ E).
  - destruct (first_named u (users w)) as [usr|] eqn:E.
    + by rewrite (post_register_taken _ _ _ _ usr E).
    + by rewrite (post_register_fresh _ _ _ _ E).
  - destruct (faculties w !! oid) as [paths|] eqn:Hlook.
    + by rewrite (post_api_faculty_duplicate _ _ _ _ _ _ Hlook).
    + by rewrite (post_api_faculty_fresh _ _ _ _ _ Hlook).
  - destruct (castObjectId id) as [o|] eqn:Hcast;
      [destruct (faculties w !! o) as [paths|] eqn:Hlook|].
    + rewrite (put_api_faculty_id_found _ _ _ _ _ _ _ Hcast Hlook).
      cbn [fst users set_faculties].
      destruct ((upload_single now part w).2); [|exact Hup].
      destruct (after_unlink_stores (o, paths) (upload_single now part w).1)
        as [-> _]. exact Hup.
    + by rewrite (put_api_faculty_id_missing _ _ _ _ _ _ Hcast Hlook).
    + by rewrite (put_api_faculty_id_malformed _ _ _ _ _ Hcast).
  - destruct (castObjectId id) as [o|] eqn:Hcast;
      [destruct (faculties w !! o) as [paths|] eqn:Hlook|].
    + rewrite (delete_api_faculty_id_found _ _ _ _ Hcast Hlook). cbn [fst].
      by destruct (after_unlink_stores (o, paths) (set_faculties (delete o) w))
        as [-> _].
    + by rewrite (delete_api_faculty_id_missing _ _ _ Hcast Hlook).
    + by rewrite (delete_api_faculty_id_malformed _ _ Hcast).
Qed.

Lemma created_keys (body : Body) (file : option MulterFile) (k : string) :
  k ∈ keys (created body file) ↔ k = "photo" ∨ k ∈ text_fields.
Proof.
  unfold keys, created, text_fields. simpl. rewrite !elem_of_cons.
  pose proof (not_elem_of_nil k). tauto.
Qed.

Lemma created_elem (body : Body) (file : option MulterFile) (k : string) :
  k ∈ text_fields → (k, body !! k) ∈ created body file.
Proof.
  unfold text_fields, created. intros Hk.
  repeat (apply elem_of_cons in Hk as [->|Hk]; [set_solver|]).
  by apply elem_of_nil in Hk.
Qed.

(** X4. A create whose drawn [_id] is new stores each text field of the
    body as sent (an empty string stays an empty string) and leaves a
    field the body does not have unset; nothing of the body besides the
    nine text fields reaches the record, and no other record changes. *)
Theorem create_stores_supplied_fields
    (w : World) (now : N) (oid : ObjectId) (body : Body)
    (part : option FilePart) :
  faculties w !! oid = None →
  let w' := (post_api_faculty now oid body part w).1 in
  ∃ paths,
    faculties w' !! oid = Some paths ∧
    (∀ k, k ∈ text_fields → paths !! k = Str <$> body !! k) ∧
    (∀ k, k ∉ text_fields → k ≠ "photo" → paths !! k = None) ∧
    (∀ oid', oid' ≠ oid → faculties w' !! oid' = faculties w !! oid').
Proof.
  intros Hfresh w'. subst w'.
  rewrite (post_api_faculty_fresh _ _ _ _ _ Hfresh). cbn [fst faculties set_faculties].
  destruct (upload_single_stores now part w) as [_ ->].
  eexists. split; [apply lookup_insert_eq|]. split; [|split].
  - intros k Hk. apply new_Faculty_lookup; [by compute_done | by apply created_elem].
  - intros k Hk Hphoto. apply new_Faculty_lookup_notin.
    rewrite created_keys. tauto.
  - intros oid' Hne. by apply lookup_insert_ne.
Qed.

(** X5. A create whose save is rejected (the drawn [_id] is already
    stored) answers 500 "Error saving faculty" and stores no record, yet
    the file that came with the request stays on disk. *)
Theorem create_rejected_keeps_upload
    (w : World) (now : N) (oid : ObjectId) (body : Body)
    (part : option FilePart) (paths : gmap string value) :
  faculties w !! oid = Some paths →
  let r := post_api_faculty now oid body part w in
  r.2 = res_status_json 500 (Outcome false "Error saving faculty") ∧
  faculties r.1 = faculties w ∧
  disk r.1 = disk_with_upload now part w.
Proof.
  intros Hdup r. subst r.
  rewrite (post_api_faculty_duplicate _ _ _ _ _ _ Hdup). cbn [fst snd].
  split; [reflexivity|]. split.
  - by destruct (upload_single_stores now part w).
  - apply upload_single_disk.
Qed.

(** X6. An update addressed to an id that no stored record has is answered
    404 when the id casts and 500 when it does not; it creates no record
    (there is no upsert), and the file that came with it stays on disk. *)
Theorem update_unknown_id_keeps_upload
    (w : World) (now : N) (id : string) (body : Body) (part : option FilePart) :
  ¬ has_record w id →
  let r := put_api_faculty_id now id body part w in
  r.2 = match castObjectId id with
        | Some _ => res_status_json 404 (Outcome false "Faculty not found")
        | None => res_status_json 500 (Outcome false "Error updating faculty")
        end ∧
  faculties r.1 = faculties w ∧
  disk r.1 = disk_with_upload now part w.
Proof.
  intros Hnone r. subst r.
  destruct (upload_single_stores now part w) as [_ Hfac].
  destruct (castObjectId id) as [o|] eqn:Hcast.
  - destruct (faculties w !! o) as [paths|] eqn:Hlook.
    { exfalso. apply Hnone. by exists o, paths. }
    rewrite (put_api_faculty_id_missing _ _ _ _ _ _ Hcast Hlook). cbn [fst snd].
    split; [reflexivity|]. split; [exact Hfac | apply upload_single_disk].
  - rewrite (put_api_faculty_id_malformed _ _ _ _ _ Hcast). cbn [fst snd].
    split; [reflexivity|]. split; [exact Hfac | apply upload_single_disk].
Qed.

(** X7. An update and a delete touch the record they address and no
    other: every record under another [_id] is stored afterwards exactly as
    before. *)
Theorem update_delete_touch_one_record
    (w : World) (now : N) (id : string) (body : Body) (part : option FilePart)
    (oid' : ObjectId) :
  castObjectId id ≠ Some oid' →
  faculties (put_api_faculty_id now id body part w).1 !! oid' = faculties w !! oid' ∧
  faculties (delete_api_faculty_id id w).1 !! oid' = faculties w !! oid'.
Proof.
  intros Hother.
  destruct (upload_single_stores now part w) as [_ Hfac].
  destruct (castObjectId id) as [o|] eqn:Hcast;
    [destruct (faculties w !! o) as [paths|] eqn:Hlook|].
  - assert (o ≠ oid') by congruence.
    rewrite (put_api_faculty_id_found _ _ _ _ _ _ _ Hcast Hlook),
      (delete_api_faculty_id_found _ _ _ _ Hcast Hlook).
    cbn [fst faculties set_faculties]. split.
    + rewrite lookup_insert_ne by done.
      destruct ((upload_single now part w).2); [|by rewrite Hfac].
      destruct (after_unlink_stores (o, paths) (upload_single now part w).1)
        as [_ ->]. by rewrite Hfac.
    + destruct (after_unlink_stores (o, paths) (set_faculties (delete o) w))
        as [_ ->]. simpl. by apply lookup_delete_ne.
  - rewrite (put_api_faculty_id_missing _ _ _ _ _ _ Hcast Hlook),
      (delete_api_faculty_id_missing _ _ _ Hcast Hlook). cbn [fst].
    by rewrite Hfac.
  - rewrite (put_api_faculty_id_malformed _ _ _ _ _ Hcast),
      (delete_api_faculty_id_malformed _ _ Hcast). cbn [fst].
    by rewrite Hfac.
Qed.
End FacultyFurther.

Section UpdatesCompose.
Context {rt : Runtime}.

(** X8. Only the nine text fields of a body matter: two bodies that agree
    on them (and differ in any other field) lead a create, and an update,
    to the same stored state and the same answer. *)
Theorem only_text_fields_of_body_matter
    (w : World) (now : N) (oid : ObjectId) (id : string)
    (body1 body2 : Body) (part : option FilePart) :
  (∀ k, k ∈ text_fields → body1 !! k = body2 !! k) →
  post_api_faculty now oid body1 part w = post_api_faculty now oid body2 part w ∧
  put_api_faculty_id now id body1 part w = put_api_faculty_id now id body2 part w.
Proof.
  intros Hagree. unfold post_api_faculty, put_api_faculty_id.
  rewrite (Hagree "name"), (Hagree "designation"), (Hagree "department"),
    (Hagree "publications"), (Hagree "researchProjects"),
    (Hagree "articlesAndJournals"), (Hagree "workshops"),
    (Hagree "coursesHandled"), (Hagree "awardsReceived") by (by compute_done).
  split; reflexivity.
Qed.

Lemma apply_update_twice (update : ObjectLiteral) (paths : gmap string value) :
  NoDup (keys update) →
  apply_update update (apply_update update paths) = apply_update update paths.
Proof.
  intros Hnd. apply map_eq. intros k.
  destruct (decide (k ∈ keys update)) as [Hin|Hnotin].
  - unfold keys in Hin. apply list_elem_of_fmap in Hin as ([k' v] & -> & Hin).
    simpl. rewrite !(apply_update_lookup update _ k' v Hnd Hin).
    destruct v; [reflexivity|]. destruct omitUndefined; reflexivity.
  - by rewrite !apply_update_lookup_notin.
Qed.

(** X9. An update without a file is idempotent: sending the same body to
    the same id a second time leaves the state the first one produced and
    gets the same answer, whether the id has a record or not. *)
Theorem update_same_body_twice
    (w : World) (now1 now2 : N) (id : string) (body : Body) :
  put_api_faculty_id now2 id body None (put_api_faculty_id now1 id body None w).1
    = put_api_faculty_id now1 id body None w.
Proof.
  destruct (castObjectId id) as [o|] eqn:Hcast;
    [destruct (faculties w !! o) as [paths|] eqn:Hlook|].
  - rewrite (put_api_faculty_id_found _ _ _ None _ _ _ Hcast Hlook).
    rewrite upload_single_none. cbn [fst snd photo_update].
    rewrite app_nil_r.
    erewrite (put_api_faculty_id_found _ _ _ None _ _ _ Hcast);
      [|apply lookup_insert_eq].
    rewrite upload_single_none. cbn [fst snd photo_update].
    rewrite app_nil_r, apply_update_twice by (by compute_done).
    f_equal. apply World_eq; [reflexivity | | reflexivity].
    simpl. apply insert_insert_eq.
  - rewrite (put_api_faculty_id_missing _ _ _ None _ _ Hcast Hlook).
    rewrite upload_single_none. cbn [fst].
    by rewrite (put_api_faculty_id_missing _ _ _ None _ _ Hcast Hlook).
  - rewrite (put_api_faculty_id_malformed _ _ _ None _ Hcast).
    rewrite upload_single_none. cbn [fst].
    by rewrite (put_api_faculty_id_malformed _ _ _ None _ Hcast).
Qed.

(** X10. Once a delete has been answered for an id that casts, the record
    is gone for the other writers too: a second delete is answered 404 and
    changes nothing, and an update is answered 404 and stores no record. *)
Theorem delete_then_gone
    (w : World) (now : N) (id : string) (oid : ObjectId) (body : Body)
    (part : option FilePart) :
  castObjectId id = Some oid →
  let w' := (delete_api_faculty_id id w).1 in
  delete_api_faculty_id id w'
    = (w', res_status_json 404 (Outcome false "Faculty not found")) ∧
  (put_api_faculty_id now id body part w').2
    = res_status_json 404 (Outcome false "Faculty not found") ∧
  faculties (put_api_faculty_id now id body part w').1 = faculties w'.
Proof.
  intros Hcast w'.
  assert (Hgone : faculties w' !! oid = None).
  { subst w'. destruct (faculties w !! oid) as [paths|] eqn:Hlook.
    - rewrite (delete_api_faculty_id_found _ _ _ _ Hcast Hlook). cbn [fst].
      destruct (after_unlink_stores (oid, paths) (set_faculties (delete oid) w))
        as [_ ->]. apply lookup_delete_eq.
    - by rewrite (delete_api_faculty_id_missing _ _ _ Hcast Hlook). }
  rewrite (delete_api_faculty_id_missing _ _ _ Hcast Hgone),
    (put_api_faculty_id_missing _ _ _ _ _ _ Hcast Hgone). cbn [fst snd].
  split; [reflexivity|]. split; [reflexivity|].
  by destruct (upload_single_stores now part w').
Qed.

(** X11. A create followed by a delete of the new record gives back the
    state before the create, records and disk alike. For a request with a
    file this needs the file's path to be new on disk, and [path.join] to
    lead the stored photo path back to where multer wrote the file. *)
Theorem create_then_delete_restores
    (w : World) (now : N) (oid : ObjectId) (id : string) (body : Body)
    (part : option FilePart) :
  castObjectId id = Some oid →
  faculties w !! oid = None →
  match part with
  | Some file =>
      path_join dirname (photo_path now file) = upload_path now file ∧
      upload_path now file ∉ disk w
  | None => True
  end →
  (delete_api_faculty_id id (post_api_faculty now oid body part w).1).1 = w.
Proof.
  intros Hcast Hfresh Hpart.
  rewrite (post_api_faculty_fresh _ _ _ _ _ Hfresh). cbn [fst].
  set (paths := new_Faculty _).
  assert (Hphoto : paths !! "photo" =
            Some (Str match part with
                      | Some file => photo_path now file
                      | None => ""
                      end)).
  { subst paths.
    rewrite (new_Faculty_lookup _ "photo"
               (Some match (upload_single now part w).2 with
                     | Some f => "/faculty_uploadss/" +:+ filename f
                     | None => ""
                     end)).
    - destruct part; reflexivity.
    - by compute_done.
    - unfold created. set_solver. }
  erewrite delete_api_faculty_id_found; [|exact Hcast|apply lookup_insert_eq].
  cbn [fst]. destruct (upload_single_stores now part w) as [Husers Hfac].
  assert (Hnonempty : ∀ file, photo_path now file ≠ "").
  { intros file. unfold photo_path. discriminate. }
  apply World_eq.
  - destruct (after_unlink_stores (oid, paths)
                (set_faculties (delete oid)
                   (set_faculties <[oid := paths]> (upload_single now part w).1)))
      as [-> _]. exact Husers.
  - destruct (after_unlink_stores (oid, paths)
                (set_faculties (delete oid)
                   (set_faculties <[oid := paths]> (upload_single now part w).1)))
      as [_ ->]. simpl. rewrite delete_insert_eq, Hfac. by apply delete_id.
  - apply set_eq. intros p. rewrite after_unlink_disk. cbn [snd].
    rewrite Hphoto. simpl. rewrite upload_single_disk.
    destruct part as [file|]; simpl.
    + destruct Hpart as [Hjoin Hnew].
      destruct (decide (photo_path now file = "")) as [Hempty|_];
        [by apply Hnonempty in Hempty|].
      rewrite elem_of_union, elem_of_singleton. split.
      * intros [[->|Hin] Hne]; [|exact Hin].
        exfalso. by apply (Hne (photo_path now file)).
      * intros Hin. split; [by right|]. intros old [= <-] ->.
        rewrite Hjoin in Hin. by apply Hnew.
    + split; [by intros [Hin _] | intros Hin; split; [exact Hin | discriminate]].
Qed.
End UpdatesCompose.

Section IndexAndDisk.
Context {rt : Runtime}.

(** X12. The index view lists every stored record exactly once: it has as
    many entries as there are records, no [_id] twice, and an entry for
    each record showing its name, designation, department and photo as
    stored. *)
Theorem index_lists_each_record_once (w : World) :
  ∃ docs,
    (get_api_faculty w).2 = res_json (Documents docs) ∧
    length docs = size (faculties w) ∧
    NoDup docs.*1 ∧
    ∀ oid paths, faculties w !! oid = Some paths →
      ∃ v, (oid, v) ∈ docs ∧ ∀ k, k ∈ index_fields → v !! k = paths !! k.
Proof.
  rewrite get_api_faculty_eq. eexists. split; [reflexivity|]. split; [|split].
  - rewrite length_fmap. apply length_map_to_list.
  - rewrite <- list_fmap_compose.
    rewrite (list_fmap_ext _ fst (map_to_list (faculties w)))
      by (by intros ? [? ?]).
    apply NoDup_fst_map_to_list.
  - intros oid paths Hlook. eexists. split.
    + apply elem_of_index. exists paths. split; [exact Hlook | reflexivity].
    + intros k Hk. by apply index_lookup.
Qed.

(** X13. Two uploads whose original names have the same extension get
    different stored names whenever the clock differs between them: a
    stored name is reused only within one millisecond. *)
Theorem upload_names_differ_by_time (now1 now2 : N) (file1 file2 : FilePart) :
  path_extname (originalname file1) = path_extname (originalname file2) →
  now1 ≠ now2 →
  storage_filename now1 file1 ≠ storage_filename now2 file2.
Proof.
  intros Hext Hne Heq. unfold storage_filename in Heq. rewrite Hext in Heq.
  apply append_inj_l, Number_toString_inj in Heq. by apply Hne.
Qed.

(** X14. What an update with a file leaves on disk, for a stored record:
    the files that were there and the uploaded one, less the path of the
    record's previous photo. So the uploaded file is there afterwards
    unless the previous photo lies at the very path it was written to. *)
Theorem update_disk_after_upload
    (w : World) (now : N) (id : string) (oid : ObjectId)
    (paths : gmap string value) (body : Body) (file : FilePart) :
  castObjectId id = Some oid →
  faculties w !! oid = Some paths →
  let w' := (put_api_faculty_id now id body (Some file) w).1 in
  (∀ p, p ∈ disk w' ↔
        (p = upload_path now file ∨ p ∈ disk w) ∧
        ∀ old, truthy (paths !! "photo") = Some old → p ≠ path_join dirname old) ∧
  (upload_path now file ∈ disk w' ↔
     ∀ old, truthy (paths !! "photo") = Some old →
            path_join dirname old ≠ upload_path now file).
Proof.
  intros Hcast Hlook w'. subst w'.
  rewrite (put_api_faculty_id_found _ _ _ _ _ _ _ Hcast Hlook).
  cbn [fst snd upload_single disk set_faculties].
  assert (Hall : ∀ p,
            p ∈ disk (after_unlink (oid, paths)
                        (set_disk (λ d, {[upload_path now file]} ∪ d) w)) ↔
            (p = upload_path now file ∨ p ∈ disk w) ∧
            ∀ old, truthy (paths !! "photo") = Some old → p ≠ path_join dirname old).
  { intros p. rewrite after_unlink_disk. simpl.
    by rewrite elem_of_union, elem_of_singleton. }
  split; [exact Hall|]. rewrite Hall. split.
  - intros [_ Hne] old Hold Heq. by apply (Hne old).
  - intros Hne. split; [by left|]. intros old Hold Heq. by apply (Hne old).
Qed.

(** X15. A delete removes from disk the file at the photo path of the
    record it removed, when the record names one, and no other file; a
    delete that is answered 404 or 500 removes none. *)
Theorem delete_removes_only_photo_file (w : World) (id : string) (p : string) :
  p ∈ disk (delete_api_faculty_id id w).1 ↔
  p ∈ disk w ∧
  ∀ oid paths old,
    castObjectId id = Some oid → faculties w !! oid = Some paths →
    truthy (paths !! "photo") = Some old → p ≠ path_join dirname old.
Proof.
  destruct (castObjectId id) as [o|] eqn:Hcast;
    [destruct (faculties w !! o) as [paths|] eqn:Hlook|].
  - rewrite (delete_api_faculty_id_found _ _ _ _ Hcast Hlook). cbn [fst].
    rewrite after_unlink_disk. simpl. split.
    + intros [Hin Hne]. split; [exact Hin|].
      intros oid paths' old [= <-] Hl Hold.
      rewrite Hlook in Hl. injection Hl as <-. by apply Hne.
    + intros [Hin Hne]. split; [exact Hin|]. intros old Hold.
      by apply (Hne o paths old).
  - rewrite (delete_api_faculty_id_missing _ _ _ Hcast Hlook). cbn [fst]. split.
    + intros Hin. split; [exact Hin|]. intros oid paths old [= <-] Hl. congruence.
    + by intros [Hin _].
  - rewrite (delete_api_faculty_id_malformed _ _ Hcast). cbn [fst]. split.
    + intros Hin. split; [exact Hin|]. discriminate.
    + by intros [Hin _].
Qed.
End IndexAndDisk.

Section UpdateAnswer.
Context {rt : Runtime}.

(** X16. The record an update answers with is the record as stored after
    it ([new: true]): a get of the same id right after the update answers
    that very document. *)
Theorem update_answer_is_stored_record
    (w : World) (now : N) (id : string) (oid : ObjectId)
    (paths : gmap string value) (body : Body) (part : option FilePart) :
  castObjectId id = Some oid →
  faculties w !! oid = Some paths →
  let r := put_api_faculty_id now id body part w in
  ∃ doc,
    r.2 = res_json (OutcomeWith true "Faculty updated successfully!" (Some doc)) ∧
    get_api_faculty_id id r.1 = (r.1, res_json (Document doc)).
Proof.
  intros Hcast Hlook r. subst r.
  rewrite (put_api_faculty_id_found _ _ _ _ _ _ _ Hcast Hlook). cbn [fst snd].
  eexists. split; [reflexivity|].
  apply (get_api_faculty_id_found _ _ _ _ Hcast). apply lookup_insert_eq.
Qed.
End UpdateAnswer.

Lemma update_answer_is_stored_record_run :
  let r := put_api_faculty_id (rt := Demo.runtime false) 5 Demo.id1
             {["name" := "Bob"]} None Demo.world in
  ∃ doc,
    r.2 = res_json (OutcomeWith true "Faculty updated successfully!" (Some doc)) ∧
    (get_api_faculty_id (rt := Demo.runtime false) Demo.id1 r.1).2
      = res_json (Document doc).
Proof.
  destruct (update_answer_is_stored_record (rt := Demo.runtime false)
              Demo.world 5 Demo.id1 Demo.oid1 Demo.ada {["name" := "Bob"]} None
              eq_refl eq_refl) as (doc & Hresp & Hget).
  exists doc. split; [exact Hresp | by rewrite Hget].
Defined.

Lemma update_keeps_omitted_when_dropped_run :
  ∃ paths',
    faculties (put_api_faculty_id (rt := Demo.runtime true) 5 Demo.id1
                 {["name" := "Bob"]} None Demo.world).1 !! Demo.oid1 = Some paths' ∧
    paths' !! "name" = Some (Str "Bob") ∧
    paths' !! "designation" = Some (Str "Professor").
Proof.
  destruct (update_keeps_omitted_when_dropped (rt := Demo.runtime true)
              Demo.world 5 Demo.id1 Demo.oid1 Demo.ada {["name" := "Bob"]} None
              eq_refl eq_refl eq_refl) as (paths' & Hstored & Hall).
  exists paths'. split; [exact Hstored|]. split.
  - apply (Hall "name"). by compute_done.
  - apply (Hall "designation"). by compute_done.
Defined.

(** ** The further properties on the sample world *)

Lemma create_stores_supplied_fields_run :
  ∃ paths,
    faculties (post_api_faculty (rt := Demo.runtime false) 5 Demo.oid2
                 {["name" := "Grace"; "workshops" := ""; "role" := "admin"]}
                 None Demo.world).1 !! Demo.oid2 = Some paths ∧
    paths !! "name" = Some (Str "Grace") ∧
    paths !! "workshops" = Some (Str "") ∧
    paths !! "department" = None ∧
    paths !! "role" = None.
Proof.
  destruct (create_stores_supplied_fields (rt := Demo.runtime false)
              Demo.world 5 Demo.oid2
              {["name" := "Grace"; "workshops" := ""; "role" := "admin"]}
              None eq_refl)
    as (paths & Hstored & Htext & Hrest & _).
  exists paths. split; [exact Hstored|]. repeat split.
  - apply (Htext "name"). by compute_done.
  - apply (Htext "workshops"). by compute_done.
  - apply (Htext "department"). by compute_done.
  - apply (Hrest "role"); by compute_done.
Defined.

Lemma create_rejected_keeps_upload_run :
  let r := post_api_faculty (rt := Demo.runtime false) 1700000000555 Demo.oid1
             ∅ (Some (mkFilePart "portrait.jpg")) Demo.world in
  status r.2 = 500 ∧
  faculties r.1 = faculties Demo.world ∧
  "/srv/backend/faculty_uploadss/1700000000555.jpg" ∈ disk r.1.
Proof.
  destruct (create_rejected_keeps_upload (rt := Demo.runtime false)
              Demo.world 1700000000555 Demo.oid1 ∅
              (Some (mkFilePart "portrait.jpg")) Demo.ada eq_refl)
    as (Hresp & Hfac & Hdisk).
  cbv zeta. split; [by rewrite Hresp|]. split; [exact Hfac|].
  rewrite Hdisk. by compute_done.
Defined.

Lemma update_unknown_id_keeps_upload_run :
  let r := put_api_faculty_id (rt := Demo.runtime false) 1700000000555 "zzz"
             ∅ (Some (mkFilePart "portrait.jpg")) Demo.world in
  status r.2 = 500 ∧
  faculties r.1 = faculties Demo.world ∧
  "/srv/backend/faculty_uploadss/1700000000555.jpg" ∈ disk r.1.
Proof.
  assert (Hnone : ¬ has_record (rt := Demo.runtime false) Demo.world "zzz").
  { intros (oid & paths & Hcast & _). discriminate Hcast. }
  destruct (update_unknown_id_keeps_upload (rt := Demo.runtime false)
              Demo.world 1700000000555 "zzz" ∅
              (Some (mkFilePart "portrait.jpg")) Hnone)
    as (Hresp & Hfac & Hdisk).
  cbv zeta. split; [by rewrite Hresp|]. split; [exact Hfac|].
  rewrite Hdisk. by compute_done.
Defined.

Lemma update_delete_touch_one_record_run :
  faculties (put_api_faculty_id (rt := Demo.runtime false) 5 Demo.id2
               {["name" := "Bob"]} None Demo.world).1 !! Demo.oid1 = Some Demo.ada ∧
  faculties (delete_api_faculty_id (rt := Demo.runtime false) Demo.id2
               Demo.world).1 !! Demo.oid1 = Some Demo.ada.
Proof.
  assert (Hother : castObjectId (Runtime := Demo.runtime false) Demo.id2
                     ≠ Some Demo.oid1) by (by compute_done).
  exact (update_delete_touch_one_record (rt := Demo.runtime false)
           Demo.world 5 Demo.id2 {["name" := "Bob"]} None Demo.oid1 Hother).
Defined.

Lemma only_text_fields_of_body_matter_run :
  put_api_faculty_id (rt := Demo.runtime false) 5 Demo.id1
    {["name" := "Bob"; "role" := "admin"]} None Demo.world
  = put_api_faculty_id (rt := Demo.runtime false) 5 Demo.id1
      {["name" := "Bob"]} None Demo.world.
Proof.
  refine (proj2 (only_text_fields_of_body_matter (rt := Demo.runtime false)
                   Demo.world 5 Demo.oid2 Demo.id1
                   {["name" := "Bob"; "role" := "admin"]} {["name" := "Bob"]}
                   None _)).
  intros k Hk. unfold text_fields in Hk.
  repeat (apply elem_of_cons in Hk as [->|Hk]; [reflexivity|]).
  by apply elem_of_nil in Hk.
Defined.

Lemma delete_then_gone_run :
  let w' := (delete_api_faculty_id (rt := Demo.runtime false) Demo.id1 Demo.world).1 in
  delete_api_faculty_id (rt := Demo.runtime false) Demo.id1 w'
    = (w', res_status_json 404 (Outcome false "Faculty not found")).
Proof.
  exact (proj1 (delete_then_gone (rt := Demo.runtime false)
                  Demo.world 5 Demo.id1 Demo.oid1 ∅ None eq_refl)).
Defined.

Lemma create_then_delete_restores_run :
  (delete_api_faculty_id (rt := Demo.runtime false) Demo.id2
     (post_api_faculty (rt := Demo.runtime false) 1700000000555 Demo.oid2
        {["name" := "Grace"]} (Some (mkFilePart "grace.png")) Demo.world).1).1
  = Demo.world.
Proof.
  apply (create_then_delete_restores (rt := Demo.runtime false)
           Demo.world 1700000000555 Demo.oid2 Demo.id2 {["name" := "Grace"]}
           (Some (mkFilePart "grace.png")) eq_refl eq_refl).
  split; [reflexivity | by compute_done].
Defined.

Lemma upload_names_differ_by_time_run :
  (1700000000555 ≠ 1700000000556)%N ∧
  storage_filename (rt := Demo.runtime false) 1700000000555 (mkFilePart "a.png")
    ≠ storage_filename (rt := Demo.runtime false) 1700000000556 (mkFilePart "b.png").
Proof.
  assert (Hne : (1700000000555 ≠ 1700000000556)%N) by discriminate.
  split; [exact Hne|].
  exact (upload_names_differ_by_time (rt := Demo.runtime false)
           1700000000555 1700000000556 (mkFilePart "a.png") (mkFilePart "b.png")
           eq_refl Hne).
Defined.

Lemma update_disk_after_upload_run :
  "/srv/backend/faculty_uploadss/1700000000555.jpg"
    ∈ disk (put_api_faculty_id (rt := Demo.runtime false) 1700000000555 Demo.id1
              ∅ (Some (mkFilePart "portrait.jpg")) Demo.world).1.
Proof.
  destruct (update_disk_after_upload (rt := Demo.runtime false)
              Demo.world 1700000000555 Demo.id1 Demo.oid1 Demo.ada ∅
              (mkFilePart "portrait.jpg") eq_refl eq_refl) as [_ Hthere].
  apply Hthere. intros old [= <-]. discriminate.
Defined.
